(** * visitreports: contact propagation and report mutation handlers

    A shallow embedding of [main.go] of the visit report service: the
    document structs, the Cosmos container the service reads and writes,
    the Service Bus listener with its fan-out updater ([setupSubscription],
    [updateInBg]) and the HTTP handlers [create], [update] and [delete].

    External collaborators are modelled by what the Go code observes of
    them: the container is a finite map from document id to document, every
    call to a collaborator is recorded in an event list, and the failures a
    collaborator may report are supplied by an [Outcome] record. *)

From Stdlib Require Import Floats.
From stdpp Require Import gmap strings list fin_maps.

Open Scope string_scope.
Open Scope list_scope.

(** ** Documents *)

(** Go's [error] interface: [None] is [nil], [Some msg] an error value. *)
Definition error : Type := string.

(** [ContactDoc] - base contact properties. *)
Module ContactDoc.
Record t : Type := mk {
  Id : string;
  Firstname : string;
  Lastname : string;
  AvatarLocation : string;
  Company : string
}.
(** The zero value [ContactDoc{}]. *)
Definition zero : t := mk "" "" "" "" "".
End ContactDoc.

(** [VisitReportModel] - struct for data access.  Of the embedded
    [cosmosapi.Document] only the promoted field [Id] is kept; the
    properties the store maintains itself ([_self], [_etag], [_rid], [_ts],
    [attachments]) are not modelled.  Go's field [Type] is [Type_] here. *)
Module VisitReportModel.
Record t : Type := mk {
  Id : string;
  Type_ : string;
  DetectedLanguage : string;
  Subject : string;
  Description : string;
  VisitDate : string;
  Result : string;
  VisitResultSentimentScore : float;
  VisitResultKeyPhrases : list string;
  Contact : ContactDoc.t
}.
Definition zero : t := mk "" "" "" "" "" "" "" 0%float [] ContactDoc.zero.
End VisitReportModel.

(** [VisitReportReadDoc] - struct for reading a report. *)
Module VisitReportReadDoc.
Record t : Type := mk {
  Id : string;
  Subject : string;
  Description : string;
  VisitDate : string;
  Result : string;
  VisitResultSentimentScore : float;
  VisitResultKeyPhrases : list string;
  Contact : ContactDoc.t
}.
Definition zero : t := mk "" "" "" "" "" 0%float [] ContactDoc.zero.
End VisitReportReadDoc.

(** [VisitReportEventDoc] - struct for sending an event; it embeds a
    [VisitReportReadDoc]. *)
Module VisitReportEventDoc.
Record t : Type := mk {
  EventType : string;
  Version : string;
  ReadDoc : VisitReportReadDoc.t
}.
Definition zero : t := mk "" "" VisitReportReadDoc.zero.
End VisitReportEventDoc.

(** [VisitReportUpdateDoc] - struct for updating a report. *)
Module VisitReportUpdateDoc.
Record t : Type := mk {
  Id : string;
  Subject : string;
  Description : string;
  Result : string;
  VisitDate : string;
  Contact : ContactDoc.t
}.
End VisitReportUpdateDoc.

(** [servicebus.Message], as far as the service uses it. *)
Module Message.
Record t : Type := mk {
  ContentType : string;
  Data : string
}.
End Message.

(** ** Constants of the source *)

(** The partition key value every store call supplies. *)
Definition partitionKey : string := "visitreport".
(** The topic [setupTopicSender] opens and [currentTopic] refers to. *)
Definition currentTopic : string := "scmvrtopic".
(** [10*time.Second], in seconds. *)
Definition sendDeadline : nat := 10.

(** ** The collaborators *)

(** Every call the service makes to a collaborator, in the order made. *)
Inductive Event : Type :=
| EvAbandon
| EvComplete
| EvPrintln (e : error)
| EvPrintf (s : string)
| EvQueryDocuments (partition contactid : string)
| EvGetDocument (partition id : string)
| EvReplaceDocument (partition id : string) (doc : VisitReportModel.t)
| EvCreateDocument (partition : string) (doc : VisitReportModel.t)
| EvDeleteDocument (partition id : string)
| EvSend (topic : string) (deadline : nat) (msg : Message.t).

(** What the collaborators answer during one handler invocation: the
    failures they report ([None] is success) and the identifier
    [uuid.New().String()] yields. *)
Record Outcome : Type := mkOutcome {
  queryErr : option error;
  replaceErr : string → option error;
  getErr : string → option error;
  createErr : option error;
  deleteErr : option error;
  sendErr : option error;
  completeErr : option error;
  newUUID : string
}.

(** Every collaborator succeeds. *)
Definition allOk (uuid : string) : Outcome :=
  mkOutcome None (λ _, None) (λ _, None) None None None None uuid.

(** The partition "visitreport" of the container "visitreports". *)
Abbreviation Store := (gmap string VisitReportModel.t).

(** The store addresses each document by its own [id] property. *)
Definition store_wf (s : Store) : Prop :=
  map_Forall (λ k d, VisitReportModel.Id d = k) s.

#[global] Instance store_wf_dec (s : Store) : Decision (store_wf s).
Proof. unfold store_wf. apply _. Defined.

(** ** A state-and-log monad for the handlers *)

Definition M (A : Type) : Type := Store → A * Store * list Event.

Definition ret {A} (a : A) : M A := λ s, (a, s, []).

Definition bind {A B} (m : M A) (k : A → M B) : M B :=
  λ s, let '(a, s1, t1) := m s in
       let '(b, s2, t2) := k a s1 in
       (b, s2, t1 ++ t2).

Notation "'let*' x ':=' m 'in' k" := (bind m (λ x, k))
  (at level 10, x pattern, m at level 100, k at level 200).
Notation "m ';;;' k" := (bind m (λ _, k))
  (at level 100, k at level 200, right associativity).

Definition emit (e : Event) : M unit := λ s, (tt, s, [e]).

(** [if err != nil { body }] *)
Definition whenErr (err : option error) (body : error → M unit) : M unit :=
  match err with
  | Some e => body e
  | None => ret tt
  end.

(** [for _, v := range l { body }] *)
Fixpoint forRange {A} (l : list A) (body : A → M unit) : M unit :=
  match l with
  | [] => ret tt
  | v :: l' => body v ;;; forRange l' body
  end.

Definition resultOf {A} (r : A * Store * list Event) : A := r.1.1.
Definition storeOf {A} (r : A * Store * list Event) : Store := r.1.2.
Definition eventsOf {A} (r : A * Store * list Event) : list Event := r.2.

(** ** The store *)

(** The documents [SELECT * FROM c where c.contact.id = @contactid]
    selects. *)
Definition matching (contactid : string) (s : Store) : list VisitReportModel.t :=
  filter (λ d, ContactDoc.Id (VisitReportModel.Contact d) = contactid)
         (snd <$> map_to_list s).

(** [currentClient.QueryDocuments]; on failure [docs] stays [nil]. *)
Definition QueryDocuments (o : Outcome) (contactid : string)
  : M (list VisitReportModel.t * option error) :=
  λ s, match queryErr o with
       | Some e => (([], Some e), s, [EvQueryDocuments partitionKey contactid])
       | None => ((matching contactid s, None), s,
                  [EvQueryDocuments partitionKey contactid])
       end.

(** [currentClient.GetDocument] into a zero-valued [VisitReportModel]. *)
Definition GetDocument (o : Outcome) (id : string)
  : M (VisitReportModel.t * option error) :=
  λ s, match getErr o id with
       | Some e => ((VisitReportModel.zero, Some e), s, [EvGetDocument partitionKey id])
       | None =>
           match s !! id with
           | Some d => ((d, None), s, [EvGetDocument partitionKey id])
           | None => ((VisitReportModel.zero, Some "NotFound"), s,
                      [EvGetDocument partitionKey id])
           end
       end.

(** [currentClient.ReplaceDocument]: the document addressed by [id] is
    replaced by [doc], which the store then holds under [doc]'s own id. *)
Definition ReplaceDocument (o : Outcome) (id : string) (doc : VisitReportModel.t)
  : M (option error) :=
  λ s, match replaceErr o id with
       | Some e => (Some e, s, [EvReplaceDocument partitionKey id doc])
       | None =>
           match s !! id with
           | None => (Some "NotFound", s, [EvReplaceDocument partitionKey id doc])
           | Some _ =>
               match delete id s !! VisitReportModel.Id doc with
               | Some _ => (Some "Conflict", s, [EvReplaceDocument partitionKey id doc])
               | None => (None, <[VisitReportModel.Id doc := doc]> (delete id s),
                          [EvReplaceDocument partitionKey id doc])
               end
           end
       end.

(** [currentClient.CreateDocument]; the returned resource carries the id of
    the created document. *)
Definition CreateDocument (o : Outcome) (doc : VisitReportModel.t)
  : M (string * option error) :=
  λ s, match createErr o with
       | Some e => (("", Some e), s, [EvCreateDocument partitionKey doc])
       | None =>
           match s !! VisitReportModel.Id doc with
           | Some _ => (("", Some "Conflict"), s, [EvCreateDocument partitionKey doc])
           | None => ((VisitReportModel.Id doc, None),
                      <[VisitReportModel.Id doc := doc]> s,
                      [EvCreateDocument partitionKey doc])
           end
       end.

(** [currentClient.DeleteDocument]. *)
Definition DeleteDocument (o : Outcome) (id : string) : M (option error) :=
  λ s, match deleteErr o with
       | Some e => (Some e, s, [EvDeleteDocument partitionKey id])
       | None =>
           match s !! id with
           | None => (Some "NotFound", s, [EvDeleteDocument partitionKey id])
           | Some _ => (None, delete id s, [EvDeleteDocument partitionKey id])
           end
       end.

(** ** The fan-out updater *)

(** The assignments of [updateInBg] to its copy of the report:
    [doc.Contact.Firstname = contact.Firstname] ... [doc.Type = "visitreport"]. *)
Definition restamp (contact : ContactDoc.t) (doc : VisitReportModel.t)
  : VisitReportModel.t :=
  VisitReportModel.mk
    (VisitReportModel.Id doc)
    "visitreport"
    (VisitReportModel.DetectedLanguage doc)
    (VisitReportModel.Subject doc)
    (VisitReportModel.Description doc)
    (VisitReportModel.VisitDate doc)
    (VisitReportModel.Result doc)
    (VisitReportModel.VisitResultSentimentScore doc)
    (VisitReportModel.VisitResultKeyPhrases doc)
    (ContactDoc.mk
       (ContactDoc.Id (VisitReportModel.Contact doc))
       (ContactDoc.Firstname contact)
       (ContactDoc.Lastname contact)
       (ContactDoc.AvatarLocation contact)
       (ContactDoc.Company contact)).

(** [updateInBg(doc, contact, wg)].  [doc] is the goroutine's own copy of
    the report; [res] is a struct value, so printing [res.RUs] after a
    failed replacement is harmless. *)
Definition updateInBg (o : Outcome) (doc : VisitReportModel.t)
    (contact : ContactDoc.t) : M unit :=
  emit (EvPrintf (String.append "Processing.... Id " (VisitReportModel.Id doc))) ;;;
  let doc := restamp contact doc in
  let* err := ReplaceDocument o (VisitReportModel.Id doc) doc in
  whenErr err (λ e, emit (EvPrintln e)) ;;;
  emit (EvPrintf "Request Units").

(** ** The contact-change listener *)

Section Listener.

(** [json.Unmarshal(m.Data, &doc)] for [doc := ContactDoc{}]: the value
    left in [doc] and the error returned. *)
Variable json_Unmarshal : string → ContactDoc.t * option error.

(** The handler function [setupSubscription] hands to [receiver.Listen].
    The goroutines the loop starts work on disjoint documents and are
    joined by [wg.Wait()] before the message is completed; they are run
    here in the order of [docs] (see [fanout_perm] for why the order
    does not matter to the store). *)
Definition handler (o : Outcome) (m : Message.t) : M (option error) :=
  let '(doc, err) := json_Unmarshal (Message.Data m) in
  whenErr err (λ e, emit EvAbandon ;;; emit (EvPrintln e)) ;;;
  whenErr err (λ e, emit (EvPrintln e)) ;;;
  let* (docs, errQuery) := QueryDocuments o (ContactDoc.Id doc) in
  whenErr errQuery (λ e, emit (EvPrintln e)) ;;;
  forRange docs (λ v, updateInBg o v doc) ;;;
  emit EvComplete ;;;
  ret (completeErr o).

End Listener.

(** ** The HTTP handlers *)

(** What gin writes for a request: the status code and the body. *)
Inductive Body : Type :=
| NoBody
| ErrorBody (msg : string)                 (* gin.H{"error": msg} *)
| ReadDocBody (d : VisitReportReadDoc.t).

Record Response : Type := mkResponse {
  status : nat;
  body : Body
}.

(** A fresh [gin.Context]: a handler that returns without writing leaves
    gin's default status 200 and an empty body. *)
Definition newContext : Response := mkResponse 200 NoBody.

(** [c.JSON(code, obj)] *)
Definition c_JSON (code : nat) (obj : Body) (c : Response) : Response :=
  mkResponse code obj.
(** [c.Status(code)] *)
Definition c_Status (code : nat) (c : Response) : Response :=
  mkResponse code (body c).
(** [c.AbortWithError(code, err)]: the status is written, the error is kept
    in the context and not in the body. *)
Definition c_AbortWithError (code : nat) (err : error) (c : Response) : Response :=
  mkResponse code (body c).

Definition StatusOK : nat := 200.
Definition StatusCreated : nat := 201.
Definition StatusBadRequest : nat := 400.
Definition StatusInternalServerError : nat := 500.

(** [copier.Copy(&to, &from)] copies every field of [from] to the field of
    [to] of the same name, embedded structs flattened; one function per pair
    of struct types the handlers use. *)
Definition Copy_ReadDoc_from_Model (to : VisitReportReadDoc.t)
    (from : VisitReportModel.t) : VisitReportReadDoc.t :=
  VisitReportReadDoc.mk
    (VisitReportModel.Id from)
    (VisitReportModel.Subject from)
    (VisitReportModel.Description from)
    (VisitReportModel.VisitDate from)
    (VisitReportModel.Result from)
    (VisitReportModel.VisitResultSentimentScore from)
    (VisitReportModel.VisitResultKeyPhrases from)
    (VisitReportModel.Contact from).

Definition Copy_EventDoc_from_Model (to : VisitReportEventDoc.t)
    (from : VisitReportModel.t) : VisitReportEventDoc.t :=
  VisitReportEventDoc.mk
    (VisitReportEventDoc.EventType to)
    (VisitReportEventDoc.Version to)
    (Copy_ReadDoc_from_Model (VisitReportEventDoc.ReadDoc to) from).

Definition Copy_Model_from_UpdateDoc (to : VisitReportModel.t)
    (from : VisitReportUpdateDoc.t) : VisitReportModel.t :=
  VisitReportModel.mk
    (VisitReportUpdateDoc.Id from)
    (VisitReportModel.Type_ to)
    (VisitReportModel.DetectedLanguage to)
    (VisitReportUpdateDoc.Subject from)
    (VisitReportUpdateDoc.Description from)
    (VisitReportUpdateDoc.VisitDate from)
    (VisitReportUpdateDoc.Result from)
    (VisitReportModel.VisitResultSentimentScore to)
    (VisitReportModel.VisitResultKeyPhrases to)
    (VisitReportUpdateDoc.Contact from).

Definition Copy_Model_from_ReadDoc (to : VisitReportModel.t)
    (from : VisitReportReadDoc.t) : VisitReportModel.t :=
  VisitReportModel.mk
    (VisitReportReadDoc.Id from)
    (VisitReportModel.Type_ to)
    (VisitReportModel.DetectedLanguage to)
    (VisitReportReadDoc.Subject from)
    (VisitReportReadDoc.Description from)
    (VisitReportReadDoc.VisitDate from)
    (VisitReportReadDoc.Result from)
    (VisitReportReadDoc.VisitResultSentimentScore from)
    (VisitReportReadDoc.VisitResultKeyPhrases from)
    (VisitReportReadDoc.Contact from).

(** [eventDoc.EventType = ...; eventDoc.Version = ...] *)
Definition stampEvent (eventType version : string) (e : VisitReportEventDoc.t)
  : VisitReportEventDoc.t :=
  VisitReportEventDoc.mk eventType version (VisitReportEventDoc.ReadDoc e).

(** [vr.Type = "visitreport"; vr.Id = uuid.New().String()] *)
Definition stampNew (uuid : string) (vr : VisitReportModel.t) : VisitReportModel.t :=
  VisitReportModel.mk
    uuid
    "visitreport"
    (VisitReportModel.DetectedLanguage vr)
    (VisitReportModel.Subject vr)
    (VisitReportModel.Description vr)
    (VisitReportModel.VisitDate vr)
    (VisitReportModel.Result vr)
    (VisitReportModel.VisitResultSentimentScore vr)
    (VisitReportModel.VisitResultKeyPhrases vr)
    (VisitReportModel.Contact vr).

(** [currentTopic.Send(ctx, &sbMessage)] with [ctx] carrying the deadline. *)
Definition Send (o : Outcome) (msg : Message.t) : M (option error) :=
  λ s, (sendErr o, s, [EvSend currentTopic sendDeadline msg]).

Module Http.
Section Handlers.

(** [c.ShouldBindJSON(&vr)] on the request body, for the two struct
    types bound: the value left in [vr] and the error returned. *)
Variable ShouldBindJSON_Model : string → VisitReportModel.t * option error.
Variable ShouldBindJSON_UpdateDoc : string → VisitReportUpdateDoc.t * option error.
(** [json.Marshal(eventDoc)] *)
Variable json_Marshal : VisitReportEventDoc.t → string * option error.

(** [func delete(c *gin.Context)] *)
Definition delete (o : Outcome) (reportid : string) : M Response :=
  let c := newContext in
  let* err := DeleteDocument o reportid in
  whenErr err (λ e, emit (EvPrintln e)) ;;;
  ret (c_Status StatusOK c).

(** [func create(c *gin.Context)] *)
Definition create (o : Outcome) (requestBody : string) : M Response :=
  let c := newContext in
  let '(vr, err) := ShouldBindJSON_Model requestBody in
  match err with
  | Some e => ret (c_JSON StatusBadRequest (ErrorBody e) c)
  | None =>
      let vr := stampNew (newUUID o) vr in
      let* (reportid, err) := CreateDocument o vr in
      match err with
      | Some e =>
          emit (EvPrintln e) ;;;
          ret (c_AbortWithError StatusInternalServerError e c)
      | None =>
          let* (doc, errRead) := GetDocument o reportid in
          whenErr errRead (λ e, emit (EvPrintln e)) ;;;
          (* send event *)
          let eventDoc := VisitReportEventDoc.zero in
          let eventDoc := Copy_EventDoc_from_Model eventDoc doc in
          let eventDoc := stampEvent "VisitReportCreatedEvent" "1" eventDoc in
          let '(m, err) := json_Marshal eventDoc in
          match err with
          | Some e => emit (EvPrintf (String.append "Error: " e)) ;;; ret c
          | None =>
              let sbMessage := Message.mk "application/json" m in
              let* err := Send o sbMessage in
              match err with
              | Some e => emit (EvPrintf (String.append "Error: " e)) ;;; ret c
              | None =>
                  let out := VisitReportReadDoc.zero in
                  let out := Copy_ReadDoc_from_Model out doc in
                  ret (c_JSON StatusCreated (ReadDocBody out) c)
              end
          end
      end
  end.

(** [func update(c *gin.Context)] *)
Definition update (o : Outcome) (reportid requestBody : string) : M Response :=
  let c := newContext in
  let '(vr, bindError) := ShouldBindJSON_UpdateDoc requestBody in
  match bindError with
  | Some e => ret (c_JSON StatusBadRequest (ErrorBody e) c)
  | None =>
      let* (model, err) := GetDocument o reportid in
      whenErr err (λ e, emit (EvPrintln e)) ;;;
      let model := Copy_Model_from_UpdateDoc model vr in
      let* err := ReplaceDocument o reportid model in
      match err with
      | Some e =>
          emit (EvPrintln e) ;;;
          ret (c_AbortWithError StatusInternalServerError e c)
      | None =>
          (* send event *)
          let eventDoc := VisitReportEventDoc.zero in
          let eventDoc := Copy_EventDoc_from_Model eventDoc model in
          let eventDoc := stampEvent "VisitReportUpdatedEvent" "1" eventDoc in
          let '(m, err) := json_Marshal eventDoc in
          match err with
          | Some e => emit (EvPrintf (String.append "Error: " e)) ;;; ret c
          | None =>
              let sbMessage := Message.mk "application/json" m in
              let* err := Send o sbMessage in
              match err with
              | Some e => emit (EvPrintf (String.append "Error: " e)) ;;; ret c
              | None =>
                  let doc := VisitReportReadDoc.zero in
                  let model := Copy_Model_from_ReadDoc model doc in
                  ret (c_JSON StatusOK (ReadDocBody doc) c)
              end
          end
      end
  end.

End Handlers.
End Http.

(** ** The read-only handlers *)

(** [VisitReportListDoc] - struct for list operation. *)
Module VisitReportListDoc.
Record t : Type := mk {
  Id : string;
  Type_ : string;
  Subject : string;
  VisitDate : string;
  Contact : ContactDoc.t
}.
Definition zero : t := mk "" "" "" "" ContactDoc.zero.
End VisitReportListDoc.

Definition Copy_ListDoc_from_Model (to : VisitReportListDoc.t)
    (from : VisitReportModel.t) : VisitReportListDoc.t :=
  VisitReportListDoc.mk
    (VisitReportModel.Id from)
    (VisitReportModel.Type_ from)
    (VisitReportModel.Subject from)
    (VisitReportModel.VisitDate from)
    (VisitReportModel.Contact from).

(** [copier.Copy(&out, &docs)] on slices: one element is copied from each
    element of [docs] into a zero value and appended to [out]. *)
Definition Copy_ListDocs_from_Models (to : list VisitReportListDoc.t)
    (from : list VisitReportModel.t) : list VisitReportListDoc.t :=
  to ++ (Copy_ListDoc_from_Model VisitReportListDoc.zero <$> from).

(** The two [cosmosapi.Query] values [list] builds: ["SELECT * FROM c"] and
    ["SELECT * FROM c where c.contact.id = @contactid"]. *)
Inductive Query : Type :=
| SelectAll
| SelectByContact (contactid : string).

(** The documents a query selects in the partition. *)
Definition selected (qry : Query) (s : Store) : list VisitReportModel.t :=
  match qry with
  | SelectAll => snd <$> map_to_list s
  | SelectByContact contactid => matching contactid s
  end.

(** What [list] does besides answering: its store query and what it
    prints. *)
Inductive ListEvent : Type :=
| LQueryDocuments (partition : string) (qry : Query)
| LPrintln (e : error).

(** The response of [list]: status and the JSON array. *)
Record ListResponse : Type := mkListResponse {
  lstatus : nat;
  lbody : list VisitReportListDoc.t
}.

Module HttpQuery.

(** [func read(c *gin.Context)] *)
Definition read (o : Outcome) (reportid : string) : M Response :=
  let c := newContext in
  let* (doc, err) := GetDocument o reportid in
  whenErr err (λ e, emit (EvPrintln e)) ;;;
  let out := VisitReportReadDoc.zero in
  let out := Copy_ReadDoc_from_Model out doc in
  ret (c_JSON StatusOK (ReadDocBody out) c).

(** [func list(c *gin.Context)]; [param] is the query parameter
    [contactid] of the request, if it has one. *)
Definition list (o : Outcome) (param : option string) (s : Store)
  : ListResponse * list ListEvent :=
  let contactid := default "" param in     (* c.DefaultQuery("contactid", "") *)
  let qry := if decide (contactid = "") then SelectAll
             else SelectByContact contactid in
  let '(docs, err) := match queryErr o with
                      | Some e => ([], Some e)
                      | None => (selected qry s, None)
                      end in
  let log := LQueryDocuments partitionKey qry
             :: match err with
                | Some e => [LPrintln e]
                | None => []
                end in
  let out := [] in
  let out := Copy_ListDocs_from_Models out docs in
  (mkListResponse StatusOK out, log).

End HttpQuery.

(** No failure of the query or of any replacement. *)
Definition propagationSucceeds (o : Outcome) : Prop :=
  queryErr o = None ∧ ∀ id, replaceErr o id = None.

(** What a propagation without failures makes of a stored report: reports
    of the contact get the new snapshot, others stay. *)
Definition propagated (c : ContactDoc.t) (d : VisitReportModel.t)
  : VisitReportModel.t :=
  if decide (ContactDoc.Id (VisitReportModel.Contact d) = ContactDoc.Id c)
  then restamp c d else d.

(** ** Auxiliary definitions for the statements *)

(** The error [ReplaceDocument] reports for a document replaced under its
    own id. *)
Definition replaceResult (o : Outcome) (s : Store) (id : string) : option error :=
  match replaceErr o id with
  | Some e => Some e
  | None => match s !! id with
            | Some _ => None
            | None => Some "NotFound"
            end
  end.

(** What [whenErr err (λ e, emit (EvPrintln e))] prints. *)
Definition printed (err : option error) : list Event :=
  match err with
  | Some e => [EvPrintln e]
  | None => []
  end.

(** The loop of the listener over the query result. *)
Definition fanout (o : Outcome) (c : ContactDoc.t) (docs : list VisitReportModel.t)
  : M unit :=
  forRange docs (λ v, updateInBg o v c).

(** The documents the listener's query hands to the loop. *)
Definition queried (o : Outcome) (cid : string) (s : Store) : list VisitReportModel.t :=
  match queryErr o with
  | Some _ => []
  | None => matching cid s
  end.

(** What the listener does on a decoding error before it goes on. *)
Definition onDecodeError (err : option error) : list Event :=
  match err with
  | Some e => [EvAbandon; EvPrintln e; EvPrintln e]
  | None => []
  end.

(** The document [update] reads before it overlays the request. *)
Definition fetched (o : Outcome) (reportid : string) (s : Store) : VisitReportModel.t :=
  match getErr o reportid, s !! reportid with
  | None, Some d => d
  | _, _ => VisitReportModel.zero
  end.

(** The replacements a run attempted: the id addressed and the document
    submitted. *)
Definition replaced (evs : list Event) : list (string * VisitReportModel.t) :=
  omap (λ e, match e with
             | EvReplaceDocument _ id doc => Some (id, doc)
             | _ => None
             end) evs.

(** The acknowledgements a run made on the message, in order. *)
Definition acks (evs : list Event) : list Event :=
  omap (λ e, match e with
             | EvAbandon => Some EvAbandon
             | EvComplete => Some EvComplete
             | _ => None
             end) evs.

(** The calls a run made to the document store, in order. *)
Definition storeCalls (evs : list Event) : list Event :=
  omap (λ e, match e with
             | EvQueryDocuments _ _ | EvGetDocument _ _
             | EvReplaceDocument _ _ _ | EvCreateDocument _ _
             | EvDeleteDocument _ _ => Some e
             | _ => None
             end) evs.

(** The messages a run sent, with topic and deadline. *)
Definition sent (evs : list Event) : list (string * nat * Message.t) :=
  omap (λ e, match e with
             | EvSend topic deadline msg => Some (topic, deadline, msg)
             | _ => None
             end) evs.

(** ** Sample data *)

(** JSON text for the sample payloads. *)
Module Json.
Definition dquote : string := String (Ascii.ascii_of_nat 34) "".
(** A JSON string literal (for text that needs no escaping). *)
Definition str (s : string) : string := dquote +:+ s +:+ dquote.
Fixpoint members (l : list (string * string)) : string :=
  match l with
  | [] => ""
  | [(k, v)] => str k +:+ ":" +:+ v
  | (k, v) :: l' => str k +:+ ":" +:+ v +:+ "," +:+ members l'
  end.
(** A JSON object from member names and the JSON text of their values. *)
Definition object (l : list (string * string)) : string :=
  "{" +:+ members l +:+ "}".
Fixpoint elements (l : list string) : string :=
  match l with
  | [] => ""
  | [v] => v
  | v :: l' => v +:+ "," +:+ elements l'
  end.
Definition array (l : list string) : string := "[" +:+ elements l +:+ "]".
End Json.

Module Sample.

Definition ann : ContactDoc.t := ContactDoc.mk "c1" "Ann" "Lee" "ann.png" "ACME".
Definition annOld : ContactDoc.t := ContactDoc.mk "c1" "Anne" "Li" "old.png" "Initech".
Definition bob : ContactDoc.t := ContactDoc.mk "c2" "Bob" "Ray" "bob.png" "Globex".

Definition r1 : VisitReportModel.t :=
  VisitReportModel.mk "r1" "visitreport" "en" "Q1 review" "first visit"
    "2020-10-01" "went well" 0.75%float ["review"] annOld.
Definition r2 : VisitReportModel.t :=
  VisitReportModel.mk "r2" "visitreport" "en" "Q2 review" "second visit"
    "2020-12-01" "" 0%float [] annOld.
Definition r3 : VisitReportModel.t :=
  VisitReportModel.mk "r3" "visitreport" "en" "Kickoff" "intro"
    "2020-11-05" "ok" 0.5%float [] bob.

Definition store : Store := <["r1" := r1]> (<["r2" := r2]> (<["r3" := r3]> ∅)).

(** [json.Unmarshal] into a [ContactDoc], tabulated on three payloads: a
    conforming notification, input that is not JSON (a syntax error, the
    target is left untouched) and an object whose [firstname] is a number
    (a type error is returned after the other members were decoded).
    Other payloads are not used below and are rejected. *)
Definition annJSON : string :=
  Json.object [("id", Json.str "c1"); ("firstname", Json.str "Ann");
               ("lastname", Json.str "Lee");
               ("avatarLocation", Json.str "ann.png");
               ("company", Json.str "ACME")].
Definition notJSON : string := "not json".
Definition mistypedJSON : string :=
  Json.object [("id", Json.str "c1"); ("firstname", "5")].

Definition json_Unmarshal (data : string) : ContactDoc.t * option error :=
  if decide (data = annJSON) then (ann, None)
  else if decide (data = mistypedJSON) then
    (ContactDoc.mk "c1" "" "" "" "",
     Some "json: cannot unmarshal number into Go struct field ContactDoc.firstname of type string")
  else (ContactDoc.zero, Some "invalid character in JSON input").

Definition msg (data : string) : Message.t := Message.mk "application/json" data.

(** Request bodies of the HTTP API, tabulated the same way. *)
Definition createJSON : string :=
  Json.object [("subject", Json.str "Q1 review");
               ("visitDate", Json.str "2020-10-01");
               ("contact", Json.object [("id", Json.str "c1");
                                        ("firstname", Json.str "Ann")])].
Definition createBound : VisitReportModel.t :=
  VisitReportModel.mk "" "" "" "Q1 review" "" "2020-10-01" "" 0%float []
    (ContactDoc.mk "c1" "Ann" "" "" "").

Definition ShouldBindJSON_Model (body : string) : VisitReportModel.t * option error :=
  if decide (body = createJSON) then (createBound, None)
  else (VisitReportModel.zero, Some "invalid request").

Definition updateJSON : string :=
  Json.object [("id", Json.str "r1"); ("subject", Json.str "Q1 review");
               ("result", Json.str "signed");
               ("visitDate", Json.str "2020-10-01");
               ("contact", Json.object [("id", Json.str "c1")])].
Definition updateBound : VisitReportUpdateDoc.t :=
  VisitReportUpdateDoc.mk "r1" "Q1 review" "" "signed" "2020-10-01"
    (ContactDoc.mk "c1" "" "" "" "").

Definition ShouldBindJSON_UpdateDoc (body : string)
  : VisitReportUpdateDoc.t * option error :=
  if decide (body = updateJSON) then (updateBound, None)
  else (VisitReportUpdateDoc.mk "" "" "" "" "" ContactDoc.zero, Some "invalid request").

(** The scores of the sample data in Go's shortest decimal form. *)
Definition formatScore (x : float) : string :=
  if PrimFloat.eqb x 0.5 then "0.5"
  else if PrimFloat.eqb x 0.75 then "0.75"
  else "0".

Definition contactJSON (c : ContactDoc.t) : string :=
  Json.object [("id", Json.str (ContactDoc.Id c));
               ("firstname", Json.str (ContactDoc.Firstname c));
               ("lastname", Json.str (ContactDoc.Lastname c));
               ("avatarLocation", Json.str (ContactDoc.AvatarLocation c));
               ("company", Json.str (ContactDoc.Company c))].

(** [json.Marshal] of an event in the member order of the struct; it does
    not fail on the sample documents. *)
Definition json_Marshal (e : VisitReportEventDoc.t) : string * option error :=
  let d := VisitReportEventDoc.ReadDoc e in
  (Json.object
     [("eventType", Json.str (VisitReportEventDoc.EventType e));
      ("version", Json.str (VisitReportEventDoc.Version e));
      ("id", Json.str (VisitReportReadDoc.Id d));
      ("subject", Json.str (VisitReportReadDoc.Subject d));
      ("description", Json.str (VisitReportReadDoc.Description d));
      ("visitDate", Json.str (VisitReportReadDoc.VisitDate d));
      ("result", Json.str (VisitReportReadDoc.Result d));
      ("visitResultSentimentScore",
       formatScore (VisitReportReadDoc.VisitResultSentimentScore d));
      ("visitResultKeyPhrases",
       Json.array (map Json.str (VisitReportReadDoc.VisitResultKeyPhrases d)));
      ("contact", contactJSON (VisitReportReadDoc.Contact d))],
   None).

(** A serializer that rejects every event. *)
Definition json_Marshal_fails (e : VisitReportEventDoc.t) : string * option error :=
  ("", Some "json: unsupported value").

Definition uuid : string := "7d444840-9dc0-11d1-b245-5ffdce74fad2".

(** Outcomes: every collaborator succeeds, or one of them fails. *)
Definition ok : Outcome := allOk uuid.
Definition replaceFailsOn (id : string) : Outcome :=
  mkOutcome None (λ k, if decide (k = id) then Some "replace failed" else None)
    (λ _, None) None None None None uuid.
Definition queryFails : Outcome :=
  mkOutcome (Some "query failed") (λ _, None) (λ _, None) None None None None uuid.
Definition sendFails : Outcome :=
  mkOutcome None (λ _, None) (λ _, None) None None (Some "send failed") None uuid.
Definition deleteFails : Outcome :=
  mkOutcome None (λ _, None) (λ _, None) None (Some "delete failed") None None uuid.

End Sample.

(** * Properties *)

Ltac run_handler :=
  unfold Http.create, Http.update, Http.delete, bind, CreateDocument, GetDocument,
    ReplaceDocument, DeleteDocument, Send, whenErr, emit, ret,
    resultOf, storeOf, eventsOf, c_JSON, c_Status, c_AbortWithError, newContext in *.

(** ** The monad *)

Lemma storeOf_bind {A B} (m : M A) (k : A → M B) s :
  storeOf (bind m k s) = storeOf (k (resultOf (m s)) (storeOf (m s))).
Proof.
  unfold bind, storeOf, resultOf. destruct (m s) as [[a s1] t1]. simpl.
  by destruct (k a s1) as [[b s2] t2].
Qed.

Lemma eventsOf_bind {A B} (m : M A) (k : A → M B) s :
  eventsOf (bind m k s)
  = eventsOf (m s) ++ eventsOf (k (resultOf (m s)) (storeOf (m s))).
Proof.
  unfold bind, eventsOf, storeOf, resultOf. destruct (m s) as [[a s1] t1]. simpl.
  by destruct (k a s1) as [[b s2] t2].
Qed.

Lemma resultOf_bind {A B} (m : M A) (k : A → M B) s :
  resultOf (bind m k s) = resultOf (k (resultOf (m s)) (storeOf (m s))).
Proof.
  unfold bind, storeOf, resultOf. destruct (m s) as [[a s1] t1]. simpl.
  by destruct (k a s1) as [[b s2] t2].
Qed.

Lemma whenErr_println err s :
  whenErr err (λ e, emit (EvPrintln e)) s = (tt, s, printed err).
Proof. by destruct err. Qed.

(** ** One replacement *)

Lemma restamp_Id c d : VisitReportModel.Id (restamp c d) = VisitReportModel.Id d.
Proof. done. Qed.

Lemma restamp_contact_Id c d :
  ContactDoc.Id (VisitReportModel.Contact (restamp c d))
  = ContactDoc.Id (VisitReportModel.Contact d).
Proof. done. Qed.

Lemma restamp_idemp c d : restamp c (restamp c d) = restamp c d.
Proof. done. Qed.

Lemma ReplaceDocument_own o d s :
  ReplaceDocument o (VisitReportModel.Id d) d s
  = (replaceResult o s (VisitReportModel.Id d),
     match replaceResult o s (VisitReportModel.Id d) with
     | None => <[VisitReportModel.Id d := d]> s
     | Some _ => s
     end,
     [EvReplaceDocument partitionKey (VisitReportModel.Id d) d]).
Proof.
  unfold ReplaceDocument, replaceResult.
  destruct (replaceErr o _); [done|].
  destruct (s !! _) eqn:Hs; [|done].
  by rewrite lookup_delete_eq, insert_delete_eq.
Qed.

Lemma updateInBg_run o v c s :
  updateInBg o v c s
  = (tt,
     match replaceResult o s (VisitReportModel.Id v) with
     | None => <[VisitReportModel.Id v := restamp c v]> s
     | Some _ => s
     end,
     [EvPrintf (String.append "Processing.... Id " (VisitReportModel.Id v));
      EvReplaceDocument partitionKey (VisitReportModel.Id v) (restamp c v)]
     ++ printed (replaceResult o s (VisitReportModel.Id v))
     ++ [EvPrintf "Request Units"]).
Proof.
  unfold updateInBg, bind, emit.
  pose proof (ReplaceDocument_own o (restamp c v) s) as H.
  rewrite restamp_Id in H. rewrite restamp_Id, H.
  rewrite whenErr_println. simpl. by destruct (replaceResult o s _).
Qed.

Lemma updateInBg_lookup_ne o v c s k :
  VisitReportModel.Id v ≠ k →
  storeOf (updateInBg o v c s) !! k = s !! k.
Proof.
  intros Hne. rewrite updateInBg_run. unfold storeOf. simpl.
  destruct (replaceResult o s _); [done|]. by rewrite lookup_insert_ne.
Qed.

Lemma updateInBg_lookup_ok o v c s :
  replaceErr o (VisitReportModel.Id v) = None →
  is_Some (s !! VisitReportModel.Id v) →
  storeOf (updateInBg o v c s) !! VisitReportModel.Id v = Some (restamp c v).
Proof.
  intros Ho [d Hd]. rewrite updateInBg_run. unfold storeOf, replaceResult. simpl.
  rewrite Ho, Hd. by rewrite lookup_insert_eq.
Qed.

Lemma updateInBg_lookup_fail o v c s :
  replaceErr o (VisitReportModel.Id v) ≠ None ∨ s !! VisitReportModel.Id v = None →
  storeOf (updateInBg o v c s) = s.
Proof.
  intros H. rewrite updateInBg_run. unfold storeOf, replaceResult. simpl.
  destruct (replaceErr o _); [done|].
  destruct H as [H|H]; [done|]. by rewrite H.
Qed.

Lemma updateInBg_is_Some o v c s k :
  is_Some (storeOf (updateInBg o v c s) !! k) ↔ is_Some (s !! k).
Proof.
  rewrite updateInBg_run. unfold storeOf, replaceResult. simpl.
  destruct (replaceErr o _); [done|].
  destruct (s !! VisitReportModel.Id v) eqn:Hs; [|done].
  destruct (decide (VisitReportModel.Id v = k)) as [<-|Hne].
  - rewrite lookup_insert_eq, Hs. split; eauto.
  - by rewrite lookup_insert_ne.
Qed.

(** ** The fan-out loop *)

Lemma fanout_cons o c v l s :
  storeOf (fanout o c (v :: l) s) = storeOf (fanout o c l (storeOf (updateInBg o v c s))).
Proof. unfold fanout. simpl. by rewrite storeOf_bind. Qed.

Lemma fanout_is_Some o c l s k :
  is_Some (storeOf (fanout o c l s) !! k) ↔ is_Some (s !! k).
Proof.
  revert s. induction l as [|v l IH]; intros s; [done|].
  rewrite fanout_cons, IH. apply updateInBg_is_Some.
Qed.

(** A key no successful replacement addresses keeps its document. *)
Lemma fanout_lookup_untouched o c l s k :
  (∀ v, v ∈ l → VisitReportModel.Id v = k →
        replaceErr o k ≠ None ∨ s !! k = None) →
  storeOf (fanout o c l s) !! k = s !! k.
Proof.
  revert s. induction l as [|v l IH]; intros s H; [done|].
  rewrite fanout_cons.
  destruct (decide (VisitReportModel.Id v = k)) as [Heq|Hne].
  - rewrite updateInBg_lookup_fail.
    + apply IH. intros v' Hv'. apply H. by right.
    + rewrite Heq. apply (H v); [by left|done].
  - rewrite IH.
    + by apply updateInBg_lookup_ne.
    + intros v' Hv' Hk. destruct (H v' ltac:(by right) Hk) as [?|Hs]; [by left|].
      right. by rewrite updateInBg_lookup_ne.
Qed.

(** A document whose own replacement succeeds reaches the new snapshot,
    whatever happens to the other replacements. *)
Lemma fanout_lookup_updated o c l s v :
  NoDup (VisitReportModel.Id <$> l) →
  v ∈ l →
  replaceErr o (VisitReportModel.Id v) = None →
  is_Some (s !! VisitReportModel.Id v) →
  storeOf (fanout o c l s) !! VisitReportModel.Id v = Some (restamp c v).
Proof.
  revert s. induction l as [|a l IH]; intros s Hnd Hin Ho Hs.
  { by apply elem_of_nil in Hin. }
  simpl in Hnd. apply NoDup_cons in Hnd as [Ha Hnd].
  rewrite fanout_cons.
  apply elem_of_cons in Hin as [->|Hin].
  - rewrite fanout_lookup_untouched.
    + by apply updateInBg_lookup_ok.
    + intros v' Hv' Heq. exfalso. apply Ha. rewrite <- Heq.
      apply list_elem_of_fmap. eauto.
  - apply IH; [done..|]. by apply updateInBg_is_Some.
Qed.

Lemma fanout_wf o c l s : store_wf s → store_wf (storeOf (fanout o c l s)).
Proof.
  revert s. induction l as [|v l IH]; intros s Hwf; [done|].
  rewrite fanout_cons. apply IH. rewrite updateInBg_run. unfold storeOf. simpl.
  destruct (replaceResult o s _); [done|].
  intros k d. destruct (decide (VisitReportModel.Id v = k)) as [<-|Hne].
  - rewrite lookup_insert_eq. by intros [= <-].
  - rewrite lookup_insert_ne by done. apply Hwf.
Qed.

Lemma fanout_result o c l s : resultOf (fanout o c l s) = tt.
Proof. by destruct (resultOf _). Qed.

Lemma fanout_events_cons o c v l s :
  eventsOf (fanout o c (v :: l) s)
  = eventsOf (updateInBg o v c s)
    ++ eventsOf (fanout o c l (storeOf (updateInBg o v c s))).
Proof. unfold fanout. simpl. by rewrite eventsOf_bind. Qed.

(** Every document of the list is submitted once, failures or not. *)
Lemma fanout_replaced o c l s :
  replaced (eventsOf (fanout o c l s))
  = (λ v, (VisitReportModel.Id v, restamp c v)) <$> l.
Proof.
  revert s. induction l as [|v l IH]; intros s; [done|].
  rewrite fanout_events_cons. unfold replaced in *. rewrite omap_app, IH.
  rewrite updateInBg_run. unfold eventsOf. simpl.
  rewrite omap_app. by destruct (replaceResult o s _).
Qed.

Lemma fanout_acks o c l s : acks (eventsOf (fanout o c l s)) = [].
Proof.
  revert s. induction l as [|v l IH]; intros s; [done|].
  rewrite fanout_events_cons. unfold acks in *. rewrite omap_app, IH.
  rewrite updateInBg_run. unfold eventsOf. simpl.
  rewrite omap_app. by destruct (replaceResult o s _).
Qed.

(** The goroutines may finish in any order: the store they leave does not
    depend on it. *)
Lemma fanout_perm o c l l' s :
  NoDup (VisitReportModel.Id <$> l) → l ≡ₚ l' →
  storeOf (fanout o c l s) = storeOf (fanout o c l' s).
Proof.
  intros Hnd Hp. assert (NoDup (VisitReportModel.Id <$> l')) as Hnd'.
  { by rewrite <- Hp. }
  apply map_eq. intros k.
  destruct (decide (k ∈ VisitReportModel.Id <$> l)) as [Hin|Hnin].
  - apply list_elem_of_fmap in Hin as (v & -> & Hv).
    destruct (replaceErr o (VisitReportModel.Id v)) as [e|] eqn:Ho.
    { rewrite !fanout_lookup_untouched; [done|intros ? ? _; left; by rewrite Ho..]. }
    destruct (s !! VisitReportModel.Id v) as [d|] eqn:Hs.
    + rewrite !fanout_lookup_updated; rewrite ?Hs; eauto. by rewrite <- Hp.
    + rewrite !fanout_lookup_untouched; [done|intros ? ? _; by right..].
  - rewrite !fanout_lookup_untouched; [done|..].
    + intros v Hv <-. exfalso. apply Hnin. apply list_elem_of_fmap_2. by rewrite Hp.
    + intros v Hv <-. exfalso. apply Hnin. by apply list_elem_of_fmap_2.
Qed.

(** ** The query *)

Lemma elem_of_matching cid s d :
  d ∈ matching cid s
  ↔ ContactDoc.Id (VisitReportModel.Contact d) = cid ∧ ∃ k, s !! k = Some d.
Proof.
  unfold matching. rewrite list_elem_of_filter, list_elem_of_fmap.
  split; intros [Hc H]; (split; [done|]).
  - destruct H as ([k d'] & -> & Hin). exists k. by apply elem_of_map_to_list.
  - destruct H as [k Hk]. exists (k, d). split; [done|]. by apply elem_of_map_to_list.
Qed.

Lemma matching_lookup cid s d :
  store_wf s → d ∈ matching cid s → s !! VisitReportModel.Id d = Some d.
Proof.
  intros Hwf (_ & k & Hk)%elem_of_matching. by rewrite (Hwf k d Hk).
Qed.

Lemma NoDup_ids_filter (P : VisitReportModel.t → Prop) `{!∀ d, Decision (P d)}
    (L : list (string * VisitReportModel.t)) :
  NoDup L.*1 →
  (∀ p, p ∈ L → VisitReportModel.Id p.2 = p.1) →
  NoDup (VisitReportModel.Id <$> filter P L.*2).
Proof.
  induction L as [|[k d] L IH]; intros Hnd Hid; [constructor|].
  simpl in Hnd. apply NoDup_cons in Hnd as [Hk Hnd].
  assert (NoDup (VisitReportModel.Id <$> filter P L.*2)) as IH'.
  { apply IH; [done|]. intros p Hp. apply Hid. by right. }
  simpl. rewrite filter_cons. destruct (decide (P d)); [|done].
  simpl. apply NoDup_cons. split; [|done].
  intros (d' & Hd' & Hin)%list_elem_of_fmap.
  apply list_elem_of_filter in Hin as [_ Hin].
  apply list_elem_of_fmap in Hin as ([k' d''] & -> & Hin).
  apply Hk. apply list_elem_of_fmap. exists (k', d''). split; [|done].
  pose proof (Hid (k', d'') ltac:(by right)) as H1.
  pose proof (Hid (k, d) ltac:(by left)) as H2.
  simpl in *. congruence.
Qed.

(** Under a well-formed store the query returns each document once. *)
Lemma matching_NoDup cid s :
  store_wf s → NoDup (VisitReportModel.Id <$> matching cid s).
Proof.
  intros Hwf. unfold matching. apply NoDup_ids_filter.
  - apply NoDup_fst_map_to_list.
  - intros [k d] Hin. apply elem_of_map_to_list in Hin. by apply Hwf.
Qed.

(** ** The listener *)

Lemma handler_run U o m s doc err :
  U (Message.Data m) = (doc, err) →
  handler U o m s
  = (completeErr o,
     storeOf (fanout o doc (queried o (ContactDoc.Id doc) s) s),
     onDecodeError err
     ++ [EvQueryDocuments partitionKey (ContactDoc.Id doc)]
     ++ printed (queryErr o)
     ++ eventsOf (fanout o doc (queried o (ContactDoc.Id doc) s) s)
     ++ [EvComplete]).
Proof.
  intros HU. unfold handler. rewrite HU.
  unfold queried, QueryDocuments, bind, whenErr, emit, ret, storeOf, eventsOf, fanout.
  destruct err, (queryErr o); simpl; try done;
    by destruct (forRange _ _ s) as [[[] s'] t'].
Qed.

Lemma handler_store U o m s doc err :
  U (Message.Data m) = (doc, err) →
  storeOf (handler U o m s)
  = storeOf (fanout o doc (queried o (ContactDoc.Id doc) s) s).
Proof. intros HU. by rewrite (handler_run _ _ _ _ _ _ HU). Qed.

Lemma handler_events U o m s doc err :
  U (Message.Data m) = (doc, err) →
  eventsOf (handler U o m s)
  = onDecodeError err
    ++ [EvQueryDocuments partitionKey (ContactDoc.Id doc)]
    ++ printed (queryErr o)
    ++ eventsOf (fanout o doc (queried o (ContactDoc.Id doc) s) s)
    ++ [EvComplete].
Proof. intros HU. by rewrite (handler_run _ _ _ _ _ _ HU). Qed.

Lemma handler_result U o m s : resultOf (handler U o m s) = completeErr o.
Proof.
  destruct (U (Message.Data m)) as [doc err] eqn:HU.
  by rewrite (handler_run _ _ _ _ _ _ HU).
Qed.

Lemma queried_NoDup o cid s :
  store_wf s → NoDup (VisitReportModel.Id <$> queried o cid s).
Proof.
  intros Hwf. unfold queried. destruct (queryErr o); [constructor|].
  by apply matching_NoDup.
Qed.

Lemma acks_app l1 l2 : acks (l1 ++ l2) = acks l1 ++ acks l2.
Proof. apply omap_app. Qed.

Lemma replaced_app l1 l2 : replaced (l1 ++ l2) = replaced l1 ++ replaced l2.
Proof. apply omap_app. Qed.

Lemma acks_printed err : acks (printed err) = [].
Proof. by destruct err. Qed.

Lemma replaced_printed err : replaced (printed err) = [].
Proof. by destruct err. Qed.

(** On a decoding error the handler abandons the message and then goes on:
    it queries the store with whatever the decoder left in [doc], runs the
    fan-out and completes the message it has abandoned. *)
Lemma handler_decode_error U o m s doc e :
  U (Message.Data m) = (doc, Some e) →
  acks (eventsOf (handler U o m s)) = [EvAbandon; EvComplete]
  ∧ ∃ rest, storeCalls (eventsOf (handler U o m s))
            = EvQueryDocuments partitionKey (ContactDoc.Id doc) :: rest.
Proof.
  intros HU. rewrite (handler_events _ _ _ _ _ _ HU). split.
  - by rewrite !acks_app, acks_printed, fanout_acks.
  - eexists. reflexivity.
Qed.

(** After a run, a matching document whose replacement was allowed to
    succeed already carries the new snapshot. *)
Lemma fanout_settled o c s k v :
  store_wf s →
  queryErr o = None → replaceErr o k = None →
  storeOf (fanout o c (queried o (ContactDoc.Id c) s) s) !! k = Some v →
  ContactDoc.Id (VisitReportModel.Contact v) = ContactDoc.Id c →
  restamp c v = v.
Proof.
  intros Hwf Hq Ho Hs1 Hc.
  assert (is_Some (s !! k)) as [v0 Hv0].
  { apply (fanout_is_Some o c (queried o (ContactDoc.Id c) s)). by rewrite Hs1. }
  pose proof (Hwf k v0 Hv0) as Hid0. simpl in Hid0.
  destruct (decide (ContactDoc.Id (VisitReportModel.Contact v0) = ContactDoc.Id c))
    as [Hc0|Hc0].
  - (* the run replaced the document *)
    assert (storeOf (fanout o c (queried o (ContactDoc.Id c) s) s)
              !! VisitReportModel.Id v0 = Some (restamp c v0)) as Hup.
    { apply fanout_lookup_updated.
      - by apply queried_NoDup.
      - unfold queried. rewrite Hq. apply elem_of_matching. eauto.
      - by rewrite Hid0.
      - rewrite Hid0. eauto. }
    rewrite Hid0, Hs1 in Hup. by injection Hup as ->.
  - (* the run did not touch it, so it cannot match now *)
    exfalso. rewrite fanout_lookup_untouched in Hs1.
    + rewrite Hv0 in Hs1. by injection Hs1 as ->.
    + intros v' Hv' Hk'. exfalso.
      unfold queried in Hv'. rewrite Hq in Hv'.
      pose proof (matching_lookup _ _ _ Hwf Hv') as Hs. rewrite Hk', Hv0 in Hs.
      injection Hs as ->. by apply elem_of_matching in Hv' as [? _].
Qed.

(** The second of two runs changes nothing when it can only succeed where
    the first one did. *)
Lemma fanout_twice o1 o2 c s :
  store_wf s →
  (∀ id, queryErr o2 = None → replaceErr o2 id = None →
         queryErr o1 = None ∧ replaceErr o1 id = None) →
  let s1 := storeOf (fanout o1 c (queried o1 (ContactDoc.Id c) s) s) in
  storeOf (fanout o2 c (queried o2 (ContactDoc.Id c) s1) s1) = s1.
Proof.
  intros Hwf Hsub s1. apply map_eq. intros k.
  assert (store_wf s1) as Hwf1 by by apply fanout_wf.
  destruct (replaceErr o2 k) as [e|] eqn:Ho2.
  { apply fanout_lookup_untouched. intros ? ? _. left. by rewrite Ho2. }
  destruct (queryErr o2) as [e|] eqn:Hq2.
  { unfold queried. by rewrite Hq2. }
  destruct (s1 !! k) as [v|] eqn:Hs1.
  2: { rewrite fanout_lookup_untouched; [done|]. intros ? ? _. by right. }
  destruct (Hsub k eq_refl Ho2) as [Hq1 Ho1].
  pose proof (Hwf1 k v Hs1) as Hid. simpl in Hid.
  destruct (decide (ContactDoc.Id (VisitReportModel.Contact v) = ContactDoc.Id c))
    as [Hc|Hc].
  - rewrite <- (fanout_settled o1 c s k v Hwf Hq1 Ho1 Hs1 Hc).
    rewrite <- Hid at 1. apply fanout_lookup_updated.
    + by apply queried_NoDup.
    + unfold queried. rewrite Hq2. apply elem_of_matching. split; [done|].
      exists k. done.
    + by rewrite Hid.
    + rewrite Hid. fold s1. by rewrite Hs1.
  - rewrite fanout_lookup_untouched; [done|]. intros v' Hv' Hk'. exfalso.
    unfold queried in Hv'. rewrite Hq2 in Hv'.
    pose proof (matching_lookup _ _ _ Hwf1 Hv') as Hs. rewrite Hk', Hs1 in Hs.
    injection Hs as ->. by apply elem_of_matching in Hv' as [? _].
Qed.

(** Redelivery: a second processing of the same message leaves the store
    as the first one left it, provided it can only succeed where the first
    one did (in particular when the first one met no failure). *)
Lemma handler_twice U o1 o2 m s :
  store_wf s →
  (∀ id, queryErr o2 = None → replaceErr o2 id = None →
         queryErr o1 = None ∧ replaceErr o1 id = None) →
  storeOf (handler U o2 m (storeOf (handler U o1 m s))) = storeOf (handler U o1 m s).
Proof.
  intros Hwf Hsub. destruct (U (Message.Data m)) as [doc err] eqn:HU.
  rewrite !(handler_store _ _ _ _ _ _ HU). by apply fanout_twice.
Qed.

(** ** The sample store *)

Lemma sample_store_wf : store_wf Sample.store.
Proof. apply (bool_decide_unpack _). by vm_compute. Qed.

(** ** Claims about the listener and the fan-out updater *)

(** C1: when a notification for contact [C] is processed (its payload
    decodes, the query and the replacement of [R] succeed), every stored
    report [R] whose embedded contact id equals [C]'s id ends with the
    snapshot fields firstname, lastname, avatarLocation and company of [C]
    and the record type "visitreport"; its id, the snapshot's id and all
    other fields are as before. *)
Theorem C1_propagation_overwrites_descriptive_fields
    (U : string → ContactDoc.t * option error) (o : Outcome) (m : Message.t)
    (s : Store) (C : ContactDoc.t) (R : VisitReportModel.t) :
  store_wf s →
  U (Message.Data m) = (C, None) →
  queryErr o = None →
  replaceErr o (VisitReportModel.Id R) = None →
  s !! VisitReportModel.Id R = Some R →
  ContactDoc.Id (VisitReportModel.Contact R) = ContactDoc.Id C →
  ∃ R', storeOf (handler U o m s) !! VisitReportModel.Id R = Some R'
    ∧ ContactDoc.Firstname (VisitReportModel.Contact R') = ContactDoc.Firstname C
    ∧ ContactDoc.Lastname (VisitReportModel.Contact R') = ContactDoc.Lastname C
    ∧ ContactDoc.AvatarLocation (VisitReportModel.Contact R')
      = ContactDoc.AvatarLocation C
    ∧ ContactDoc.Company (VisitReportModel.Contact R') = ContactDoc.Company C
    ∧ VisitReportModel.Type_ R' = "visitreport"
    ∧ VisitReportModel.Id R' = VisitReportModel.Id R
    ∧ ContactDoc.Id (VisitReportModel.Contact R')
      = ContactDoc.Id (VisitReportModel.Contact R)
    ∧ VisitReportModel.DetectedLanguage R' = VisitReportModel.DetectedLanguage R
    ∧ VisitReportModel.Subject R' = VisitReportModel.Subject R
    ∧ VisitReportModel.Description R' = VisitReportModel.Description R
    ∧ VisitReportModel.VisitDate R' = VisitReportModel.VisitDate R
    ∧ VisitReportModel.Result R' = VisitReportModel.Result R
    ∧ VisitReportModel.VisitResultSentimentScore R'
      = VisitReportModel.VisitResultSentimentScore R
    ∧ VisitReportModel.VisitResultKeyPhrases R'
      = VisitReportModel.VisitResultKeyPhrases R.
Proof.
  intros Hwf HU Hq Ho HR Hc. exists (restamp C R). split; [|by repeat split].
  rewrite (handler_store _ _ _ _ _ _ HU). apply fanout_lookup_updated.
  - by apply queried_NoDup.
  - unfold queried. rewrite Hq. apply elem_of_matching. eauto.
  - done.
  - eauto.
Qed.

Lemma C1_witness :
  ∃ R', storeOf (handler Sample.json_Unmarshal Sample.ok
                   (Sample.msg Sample.annJSON) Sample.store) !! "r1" = Some R'
        ∧ VisitReportModel.Contact R' = Sample.ann
        ∧ VisitReportModel.Id R' = "r1".
Proof.
  destruct (C1_propagation_overwrites_descriptive_fields
              Sample.json_Unmarshal Sample.ok (Sample.msg Sample.annJSON)
              Sample.store Sample.ann Sample.r1)
    as (R' & HR' & Hf & Hl & Ha & Hco & _ & Hid & Hcid & _).
  - apply (bool_decide_unpack _). by vm_compute.
  - reflexivity.
  - reflexivity.
  - reflexivity.
  - reflexivity.
  - reflexivity.
  - exists R'. split; [exact HR'|]. split; [|exact Hid].
    destruct R' as [? ? ? ? ? ? ? ? ? []]. simpl in *. by subst.
Defined.

(** C2 (the code departs from it): on a payload that does not decode the
    listener abandons the message, prints the error, and then carries on.
    For input that is not JSON it queries the store for the contact id ""
    and completes the message; for an object whose first name is a number
    it queries for "c1" and blanks the snapshots of that contact's
    reports. *)
Theorem C2_decode_failure_goes_on :
  eventsOf (handler Sample.json_Unmarshal Sample.ok
              (Sample.msg Sample.notJSON) Sample.store)
  = [EvAbandon;
     EvPrintln "invalid character in JSON input";
     EvPrintln "invalid character in JSON input";
     EvQueryDocuments "visitreport" "";
     EvComplete]
  ∧ storeOf (handler Sample.json_Unmarshal Sample.ok
               (Sample.msg Sample.mistypedJSON) Sample.store) !! "r1"
    = Some (restamp (ContactDoc.mk "c1" "" "" "" "") Sample.r1)
  ∧ Sample.store !! "r1" = Some Sample.r1.
Proof. by vm_compute. Qed.

(** C3: when the payload decodes, the handler never abandons the message
    and completes it as its last action, after every matched report was
    submitted for replacement, whatever the replacements report; when the
    query fails the handler prints the error, leaves the store as it is and
    still completes the message. *)
Theorem C3_decoded_message_is_completed
    (U : string → ContactDoc.t * option error) (o : Outcome) (m : Message.t)
    (s : Store) (C : ContactDoc.t) :
  U (Message.Data m) = (C, None) →
  ∃ evs,
    eventsOf (handler U o m s) = evs ++ [EvComplete]
    ∧ acks evs = []
    ∧ replaced evs
      = (λ v, (VisitReportModel.Id v, restamp C v)) <$> queried o (ContactDoc.Id C) s
    ∧ resultOf (handler U o m s) = completeErr o
    ∧ ∀ e, queryErr o = Some e →
           evs = [EvQueryDocuments partitionKey (ContactDoc.Id C); EvPrintln e]
           ∧ storeOf (handler U o m s) = s.
Proof.
  intros HU.
  exists ([EvQueryDocuments partitionKey (ContactDoc.Id C)]
          ++ printed (queryErr o)
          ++ eventsOf (fanout o C (queried o (ContactDoc.Id C) s) s)).
  repeat split.
  - rewrite (handler_events _ _ _ _ _ _ HU). simpl. by rewrite <- !app_assoc.
  - by rewrite !acks_app, acks_printed, fanout_acks.
  - by rewrite !replaced_app, replaced_printed, fanout_replaced.
  - apply handler_result.
  - unfold queried. by rewrite H.
  - rewrite (handler_store _ _ _ _ _ _ HU). unfold queried. by rewrite H.
Qed.

Lemma C3_witness :
  eventsOf (handler Sample.json_Unmarshal Sample.queryFails
              (Sample.msg Sample.annJSON) Sample.store)
  = [EvQueryDocuments "visitreport" "c1"; EvPrintln "query failed"; EvComplete].
Proof.
  destruct (C3_decoded_message_is_completed
              Sample.json_Unmarshal Sample.queryFails (Sample.msg Sample.annJSON)
              Sample.store Sample.ann)
    as (evs & Hev & _ & _ & _ & Hq).
  - reflexivity.
  - destruct (Hq "query failed") as [-> _]; [reflexivity|]. exact Hev.
Defined.

(** C4 (the code departs from it): on a payload that does not decode the
    handler calls both [Abandon] and [Complete] on the message. *)
Theorem C4_abandoned_message_is_completed :
  acks (eventsOf (handler Sample.json_Unmarshal Sample.ok
                    (Sample.msg Sample.notJSON) Sample.store))
  = [EvAbandon; EvComplete].
Proof. by vm_compute. Qed.

(** C6: processing a notification a second time, with the collaborators
    answering as they did the first time, leaves the store exactly as the
    first processing left it. *)
Theorem C6_processing_twice_is_processing_once
    (U : string → ContactDoc.t * option error) (o : Outcome) (m : Message.t)
    (s : Store) :
  store_wf s →
  storeOf (handler U o m (storeOf (handler U o m s))) = storeOf (handler U o m s).
Proof.
  intros Hwf. destruct (U (Message.Data m)) as [doc err] eqn:HU.
  rewrite !(handler_store _ _ _ _ _ _ HU). by apply fanout_twice.
Qed.

Lemma C6_witness :
  storeOf (handler Sample.json_Unmarshal Sample.ok (Sample.msg Sample.annJSON)
             (storeOf (handler Sample.json_Unmarshal Sample.ok
                         (Sample.msg Sample.annJSON) Sample.store)))
  = storeOf (handler Sample.json_Unmarshal Sample.ok
               (Sample.msg Sample.annJSON) Sample.store).
Proof.
  apply C6_processing_twice_is_processing_once.
  apply (bool_decide_unpack _). by vm_compute.
Defined.

(** C7: when the query succeeds, every matched report is submitted for
    replacement exactly once, under its own id and carrying the
    notification's firstname, lastname, avatarLocation and company and the
    type "visitreport", whatever the other replacements report; the message
    is completed afterwards.  Every matched report whose own replacement
    succeeds is then stored with these four snapshot fields equal to the
    contact's, the type "visitreport", and its id, the snapshot's id and
    all other fields as before; so when exactly one replacement fails the
    other reports are all updated, and the failing one keeps its old
    state. *)
Theorem C7_replacements_are_isolated
    (U : string → ContactDoc.t * option error) (o : Outcome) (m : Message.t)
    (s : Store) (C : ContactDoc.t) (err : option error) :
  store_wf s →
  U (Message.Data m) = (C, err) →
  queryErr o = None →
  (replaced (eventsOf (handler U o m s))).*1
  = VisitReportModel.Id <$> matching (ContactDoc.Id C) s
  ∧ (∀ id doc, (id, doc) ∈ replaced (eventsOf (handler U o m s)) →
       VisitReportModel.Id doc = id
       ∧ ContactDoc.Firstname (VisitReportModel.Contact doc) = ContactDoc.Firstname C
       ∧ ContactDoc.Lastname (VisitReportModel.Contact doc) = ContactDoc.Lastname C
       ∧ ContactDoc.AvatarLocation (VisitReportModel.Contact doc)
         = ContactDoc.AvatarLocation C
       ∧ ContactDoc.Company (VisitReportModel.Contact doc) = ContactDoc.Company C
       ∧ VisitReportModel.Type_ doc = "visitreport")
  ∧ last (eventsOf (handler U o m s)) = Some EvComplete
  ∧ (∀ R, R ∈ matching (ContactDoc.Id C) s →
          replaceErr o (VisitReportModel.Id R) = None →
          ∃ R', storeOf (handler U o m s) !! VisitReportModel.Id R = Some R'
            ∧ ContactDoc.Firstname (VisitReportModel.Contact R')
              = ContactDoc.Firstname C
            ∧ ContactDoc.Lastname (VisitReportModel.Contact R')
              = ContactDoc.Lastname C
            ∧ ContactDoc.AvatarLocation (VisitReportModel.Contact R')
              = ContactDoc.AvatarLocation C
            ∧ ContactDoc.Company (VisitReportModel.Contact R')
              = ContactDoc.Company C
            ∧ VisitReportModel.Type_ R' = "visitreport"
            ∧ VisitReportModel.Id R' = VisitReportModel.Id R
            ∧ ContactDoc.Id (VisitReportModel.Contact R')
              = ContactDoc.Id (VisitReportModel.Contact R)
            ∧ VisitReportModel.DetectedLanguage R'
              = VisitReportModel.DetectedLanguage R
            ∧ VisitReportModel.Subject R' = VisitReportModel.Subject R
            ∧ VisitReportModel.Description R' = VisitReportModel.Description R
            ∧ VisitReportModel.VisitDate R' = VisitReportModel.VisitDate R
            ∧ VisitReportModel.Result R' = VisitReportModel.Result R
            ∧ VisitReportModel.VisitResultSentimentScore R'
              = VisitReportModel.VisitResultSentimentScore R
            ∧ VisitReportModel.VisitResultKeyPhrases R'
              = VisitReportModel.VisitResultKeyPhrases R)
  ∧ (∀ R, R ∈ matching (ContactDoc.Id C) s →
          replaceErr o (VisitReportModel.Id R) ≠ None →
          storeOf (handler U o m s) !! VisitReportModel.Id R = Some R).
Proof.
  intros Hwf HU Hq.
  assert (queried o (ContactDoc.Id C) s = matching (ContactDoc.Id C) s) as Hqd.
  { unfold queried. by rewrite Hq. }
  assert (replaced (eventsOf (handler U o m s))
          = (λ v, (VisitReportModel.Id v, restamp C v))
              <$> matching (ContactDoc.Id C) s) as Hrep.
  { rewrite (handler_events _ _ _ _ _ _ HU), Hqd.
    rewrite !replaced_app, replaced_printed, fanout_replaced.
    destruct err; simpl; by rewrite app_nil_r. }
  split; [|split; [|split; [|split]]].
  - rewrite Hrep, <- list_fmap_compose. by apply list_fmap_ext.
  - intros id doc Hin. rewrite Hrep in Hin.
    apply list_elem_of_fmap in Hin as (v & [= -> ->] & _). by repeat split.
  - rewrite (handler_events _ _ _ _ _ _ HU), !app_assoc. apply last_snoc.
  - intros R HR Ho. exists (restamp C R). split; [|by repeat split].
    rewrite (handler_store _ _ _ _ _ _ HU), Hqd.
    apply fanout_lookup_updated; [by apply matching_NoDup|done..|].
    rewrite (matching_lookup _ _ _ Hwf HR). eauto.
  - intros R HR Ho. rewrite (handler_store _ _ _ _ _ _ HU), Hqd.
    rewrite fanout_lookup_untouched.
    + by apply matching_lookup with (ContactDoc.Id C).
    + intros ? ? _. by left.
Qed.

Lemma C7_witness :
  (∃ R', storeOf (handler Sample.json_Unmarshal (Sample.replaceFailsOn "r1")
                    (Sample.msg Sample.annJSON) Sample.store) !! "r2" = Some R'
         ∧ VisitReportModel.Contact R' = Sample.ann
         ∧ VisitReportModel.Type_ R' = "visitreport"
         ∧ VisitReportModel.Subject R' = "Q2 review")
  ∧ storeOf (handler Sample.json_Unmarshal (Sample.replaceFailsOn "r1")
               (Sample.msg Sample.annJSON) Sample.store) !! "r1"
    = Some Sample.r1.
Proof.
  destruct (C7_replacements_are_isolated
              Sample.json_Unmarshal (Sample.replaceFailsOn "r1")
              (Sample.msg Sample.annJSON) Sample.store Sample.ann None)
    as (_ & _ & _ & Hok & Hfail).
  - apply (bool_decide_unpack _). by vm_compute.
  - reflexivity.
  - reflexivity.
  - split.
    + destruct (Hok Sample.r2)
        as (R' & HR' & Hf & Hl & Ha & Hco & Hty & _ & Hcid & _ & Hsub & _).
      * apply elem_of_matching. split; [reflexivity|]. exists "r2". by vm_compute.
      * reflexivity.
      * exists R'. split; [exact HR'|]. split; [|split; [exact Hty|exact Hsub]].
        destruct R' as [? ? ? ? ? ? ? ? ? []]. simpl in *. by subst.
    + apply (Hfail Sample.r1); [|by vm_compute].
      apply elem_of_matching. split; [reflexivity|]. exists "r1". by vm_compute.
Defined.

(** ** Claims about the HTTP handlers *)

(** A create answered with 201 persisted the bound report under the
    generated id and the fixed type, and sent one created-event. *)
Lemma create_created B Mar o body s :
  status (resultOf (Http.create B Mar o body s)) = StatusCreated →
  ∃ vr ev data,
    B body = (vr, None)
    ∧ s !! newUUID o = None
    ∧ storeOf (Http.create B Mar o body s)
      = <[newUUID o := stampNew (newUUID o) vr]> s
    ∧ VisitReportEventDoc.EventType ev = "VisitReportCreatedEvent"
    ∧ VisitReportEventDoc.Version ev = "1"
    ∧ Mar ev = (data, None)
    ∧ sent (eventsOf (Http.create B Mar o body s))
      = [(currentTopic, sendDeadline, Message.mk "application/json" data)].
Proof.
  run_handler.
  destruct (B body) as [vr [e|]] eqn:HB; [done|]. simpl.
  destruct (createErr o); [done|].
  destruct (s !! newUUID o) eqn:Hs; [done|].
  simpl. rewrite lookup_insert_eq.
  destruct (getErr o (newUUID o)); simpl.
  all: destruct (Mar _) as [data [?|]] eqn:HM; simpl; try done.
  all: destruct (sendErr o); simpl; try done.
  all: intros _; do 3 eexists; repeat split; try exact HM; done.
Qed.

(** An update answered with a body fetched the document, overlaid the
    request, submitted the result for replacement and sent one
    updated-event built from it; the body it answers with is the zero
    value of the projection. *)
Lemma update_answered B Mar o reportid body s d :
  resultOf (Http.update B Mar o reportid body s) = mkResponse StatusOK (ReadDocBody d) →
  ∃ vr data,
    B body = (vr, None)
    ∧ storeCalls (eventsOf (Http.update B Mar o reportid body s))
      = [EvGetDocument partitionKey reportid;
         EvReplaceDocument partitionKey reportid
           (Copy_Model_from_UpdateDoc (fetched o reportid s) vr)]
    ∧ Mar (stampEvent "VisitReportUpdatedEvent" "1"
             (Copy_EventDoc_from_Model VisitReportEventDoc.zero
                (Copy_Model_from_UpdateDoc (fetched o reportid s) vr)))
      = (data, None)
    ∧ sent (eventsOf (Http.update B Mar o reportid body s))
      = [(currentTopic, sendDeadline, Message.mk "application/json" data)]
    ∧ d = VisitReportReadDoc.zero.
Proof.
  run_handler. unfold fetched.
  destruct (B body) as [vr [e|]] eqn:HB; [done|].
  destruct (getErr o reportid), (s !! reportid) eqn:Hs; simpl; rewrite ?Hs.
  all: destruct (replaceErr o reportid); simpl; try done.
  all: destruct (delete reportid s !! _); simpl; try done.
  all: destruct (Mar _) as [data [?|]] eqn:HM; simpl; try done.
  all: destruct (sendErr o); simpl; try done.
  all: intros H; inversion H; subst.
  all: do 2 eexists; repeat split; exact HM.
Qed.

(** Once the report is persisted, a failing [json.Marshal] or a failing
    [Send] makes [create] return without writing a response. *)
Lemma create_publish_failure B Mar o body s vr :
  B body = (vr, None) →
  createErr o = None → s !! newUUID o = None →
  (∀ ev, (Mar ev).2 ≠ None) ∨ sendErr o ≠ None →
  resultOf (Http.create B Mar o body s) = newContext
  ∧ storeOf (Http.create B Mar o body s) !! newUUID o
    = Some (stampNew (newUUID o) vr).
Proof.
  intros HB Hc Hs Hfail. run_handler. rewrite HB, Hc. simpl. rewrite Hs. simpl.
  rewrite lookup_insert_eq.
  destruct (getErr o (newUUID o)); simpl.
  all: destruct (Mar _) as [data [?|]] eqn:HM; simpl;
    [by rewrite lookup_insert_eq|].
  all: destruct Hfail as [Hm|Hsend];
    [exfalso; eapply Hm; exact (f_equal snd HM)|].
  all: destruct (sendErr o); [|done]; simpl; by rewrite lookup_insert_eq.
Qed.

(** C5 (the code departs from it): the handlers write the response only
    after the event was sent.  With [Send] failing, [create] has persisted
    the report and answers with gin's default 200 and no body where it
    answers 201 and the projection when [Send] succeeds; [update] answers
    200 with no body where it answers 200 with a body when [Send]
    succeeds.  A failing [json.Marshal] has the same effect. *)
Theorem C5_publish_failure_changes_response :
  resultOf (Http.create Sample.ShouldBindJSON_Model Sample.json_Marshal
              Sample.ok Sample.createJSON Sample.store)
  = mkResponse 201
      (ReadDocBody
         (Copy_ReadDoc_from_Model VisitReportReadDoc.zero
            (stampNew Sample.uuid Sample.createBound)))
  ∧ resultOf (Http.create Sample.ShouldBindJSON_Model Sample.json_Marshal
                Sample.sendFails Sample.createJSON Sample.store)
    = mkResponse 200 NoBody
  ∧ storeOf (Http.create Sample.ShouldBindJSON_Model Sample.json_Marshal
               Sample.sendFails Sample.createJSON Sample.store) !! Sample.uuid
    = Some (stampNew Sample.uuid Sample.createBound)
  ∧ resultOf (Http.create Sample.ShouldBindJSON_Model Sample.json_Marshal_fails
                Sample.ok Sample.createJSON Sample.store)
    = mkResponse 200 NoBody
  ∧ resultOf (Http.update Sample.ShouldBindJSON_UpdateDoc Sample.json_Marshal
                Sample.ok "r1" Sample.updateJSON Sample.store)
    = mkResponse 200 (ReadDocBody VisitReportReadDoc.zero)
  ∧ resultOf (Http.update Sample.ShouldBindJSON_UpdateDoc Sample.json_Marshal
                Sample.sendFails "r1" Sample.updateJSON Sample.store)
    = mkResponse 200 NoBody
  ∧ storeOf (Http.update Sample.ShouldBindJSON_UpdateDoc Sample.json_Marshal
               Sample.sendFails "r1" Sample.updateJSON Sample.store) !! "r1"
    = Some (Copy_Model_from_UpdateDoc Sample.r1 Sample.updateBound).
Proof. by vm_compute. Qed.

(** C8 (the code departs from it): a successful update of report r1
    persists the overlaid document and publishes the event, but the body
    of its 200 response is the zero value of the projection, not the
    projection of the updated report. *)
Theorem C8_update_answers_empty_projection :
  let run := Http.update Sample.ShouldBindJSON_UpdateDoc Sample.json_Marshal
               Sample.ok "r1" Sample.updateJSON Sample.store in
  let model := Copy_Model_from_UpdateDoc Sample.r1 Sample.updateBound in
  storeOf run !! "r1" = Some model
  ∧ sent (eventsOf run)
    = [(currentTopic, sendDeadline,
        Message.mk "application/json"
          (Sample.json_Marshal
             (stampEvent "VisitReportUpdatedEvent" "1"
                (Copy_EventDoc_from_Model VisitReportEventDoc.zero model))).1)]
  ∧ resultOf run = mkResponse 200 (ReadDocBody VisitReportReadDoc.zero)
  ∧ VisitReportReadDoc.Subject (Copy_ReadDoc_from_Model VisitReportReadDoc.zero model)
    = "Q1 review"
  ∧ VisitReportReadDoc.Subject VisitReportReadDoc.zero = "".
Proof. by vm_compute. Qed.

(** C9: a create answered with 201 has stored the report under the id the
    generator returned, an id the store did not hold, with the type
    "visitreport", and has sent exactly one message: content type
    "application/json", the JSON of an event of type
    "VisitReportCreatedEvent" and version "1", to the topic of
    [currentTopic] under a deadline of 10 seconds.  An update answered
    with a body has sent exactly one such message for an event of type
    "VisitReportUpdatedEvent" and version "1". *)
Theorem C9_one_event_per_successful_mutation
    (B : string → VisitReportModel.t * option error)
    (Bu : string → VisitReportUpdateDoc.t * option error)
    (Mar : VisitReportEventDoc.t → string * option error)
    (o : Outcome) (reportid body : string) (s : Store) :
  (status (resultOf (Http.create B Mar o body s)) = 201 →
   ∃ stored ev data,
     s !! newUUID o = None
     ∧ storeOf (Http.create B Mar o body s) !! newUUID o = Some stored
     ∧ VisitReportModel.Id stored = newUUID o
     ∧ VisitReportModel.Type_ stored = "visitreport"
     ∧ VisitReportEventDoc.EventType ev = "VisitReportCreatedEvent"
     ∧ VisitReportEventDoc.Version ev = "1"
     ∧ Mar ev = (data, None)
     ∧ sent (eventsOf (Http.create B Mar o body s))
       = [("scmvrtopic", 10, Message.mk "application/json" data)])
  ∧ (∀ d, resultOf (Http.update Bu Mar o reportid body s)
          = mkResponse 200 (ReadDocBody d) →
     ∃ ev data,
       VisitReportEventDoc.EventType ev = "VisitReportUpdatedEvent"
       ∧ VisitReportEventDoc.Version ev = "1"
       ∧ Mar ev = (data, None)
       ∧ sent (eventsOf (Http.update Bu Mar o reportid body s))
         = [("scmvrtopic", 10, Message.mk "application/json" data)]).
Proof.
  split.
  - intros H. apply create_created in H
      as (vr & ev & data & _ & Hs & Hst & Hty & Hv & HM & Hsent).
    exists (stampNew (newUUID o) vr), ev, data.
    rewrite Hst, lookup_insert_eq. by repeat split.
  - intros d H. apply update_answered in H as (vr & data & _ & _ & HM & Hsent & _).
    eexists _, data. repeat split; [| |exact HM|exact Hsent]; done.
Qed.

Lemma C9_witness :
  (∃ data, sent (eventsOf (Http.create Sample.ShouldBindJSON_Model Sample.json_Marshal
                             Sample.ok Sample.createJSON Sample.store))
           = [("scmvrtopic", 10, Message.mk "application/json" data)])
  ∧ (∃ data, sent (eventsOf (Http.update Sample.ShouldBindJSON_UpdateDoc
                               Sample.json_Marshal Sample.ok "r1" Sample.updateJSON
                               Sample.store))
             = [("scmvrtopic", 10, Message.mk "application/json" data)]).
Proof.
  destruct (C9_one_event_per_successful_mutation
              Sample.ShouldBindJSON_Model Sample.ShouldBindJSON_UpdateDoc
              Sample.json_Marshal Sample.ok "r1" Sample.createJSON Sample.store)
    as [Hc _].
  destruct (C9_one_event_per_successful_mutation
              Sample.ShouldBindJSON_Model Sample.ShouldBindJSON_UpdateDoc
              Sample.json_Marshal Sample.ok "r1" Sample.updateJSON Sample.store)
    as [_ Hu].
  split.
  - destruct Hc as (_ & _ & data & _ & _ & _ & _ & _ & _ & _ & Hsent);
      [by vm_compute|].
    exists data. exact Hsent.
  - destruct (Hu VisitReportReadDoc.zero) as (_ & data & _ & _ & _ & Hsent);
      [by vm_compute|].
    exists data. exact Hsent.
Defined.

(** C10: [delete] answers 200 with no body whatever the store reports;
    the error of a failing delete is printed and nothing else happens. *)
Theorem C10_delete_always_answers_200 (o : Outcome) (reportid : string) (s : Store) :
  resultOf (Http.delete o reportid s) = mkResponse 200 NoBody
  ∧ ∃ err, eventsOf (Http.delete o reportid s)
           = [EvDeleteDocument partitionKey reportid] ++ printed err
    ∧ (err = None → storeOf (Http.delete o reportid s) = base.delete reportid s)
    ∧ (err ≠ None → storeOf (Http.delete o reportid s) = s)
    ∧ (∀ e, deleteErr o = Some e → err = Some e).
Proof.
  run_handler.
  destruct (deleteErr o) as [e|]; simpl.
  - split; [done|]. exists (Some e). by repeat split.
  - destruct (s !! reportid); simpl.
    + split; [done|]. exists None. by repeat split.
    + split; [done|]. exists (Some "NotFound"). by repeat split.
Qed.

Lemma C10_witness :
  resultOf (Http.delete Sample.deleteFails "r1" Sample.store) = mkResponse 200 NoBody
  ∧ eventsOf (Http.delete Sample.deleteFails "r1" Sample.store)
    = [EvDeleteDocument "visitreport" "r1"; EvPrintln "delete failed"]
  ∧ storeOf (Http.delete Sample.deleteFails "r1" Sample.store) = Sample.store.
Proof.
  destruct (C10_delete_always_answers_200 Sample.deleteFails "r1" Sample.store)
    as (Hres & err & Hev & _ & Hst & Herr).
  pose proof (Herr "delete failed" eq_refl) as ->.
  split; [exact Hres|]. split; [exact Hev|]. by apply Hst.
Defined.

(** * Further properties of the listener *)

Lemma queried_lookup o cid s v :
  store_wf s → v ∈ queried o cid s →
  s !! VisitReportModel.Id v = Some v
  ∧ ContactDoc.Id (VisitReportModel.Contact v) = cid.
Proof.
  intros Hwf Hv. unfold queried in Hv.
  destruct (queryErr o); [by apply elem_of_nil in Hv|].
  split; [by apply matching_lookup with cid|].
  by apply elem_of_matching in Hv as [? _].
Qed.

(** After a run, a key holds what it held, or the restamped report. *)
Lemma fanout_lookup_cases o c s k :
  store_wf s →
  let s1 := storeOf (fanout o c (queried o (ContactDoc.Id c) s) s) in
  s1 !! k = s !! k
  ∨ ∃ d, s !! k = Some d
         ∧ ContactDoc.Id (VisitReportModel.Contact d) = ContactDoc.Id c
         ∧ s1 !! k = Some (restamp c d).
Proof.
  intros Hwf s1. unfold s1.
  destruct (s !! k) as [d|] eqn:Hs.
  2: { left. rewrite fanout_lookup_untouched; [done|]. intros ? ? _. by right. }
  destruct (queryErr o) as [e|] eqn:Hq.
  { left. unfold queried. by rewrite Hq. }
  destruct (decide (ContactDoc.Id (VisitReportModel.Contact d) = ContactDoc.Id c))
    as [Hc|Hc].
  - destruct (replaceErr o k) as [e|] eqn:Ho.
    { left. rewrite fanout_lookup_untouched; [done|]. intros ? ? _. left.
      by rewrite Ho. }
    right. exists d. pose proof (Hwf k d Hs) as Hid. simpl in Hid.
    split; [done|]. split; [done|]. rewrite <- Hid.
    apply fanout_lookup_updated; [by apply queried_NoDup| |by rewrite Hid|].
    + unfold queried. rewrite Hq. apply elem_of_matching. eauto.
    + rewrite Hid, Hs. eauto.
  - left. rewrite fanout_lookup_untouched; [done|]. intros v Hv Hk. exfalso.
    destruct (queried_lookup _ _ _ _ Hwf Hv) as [Hlk Hcv].
    rewrite Hk, Hs in Hlk. injection Hlk as ->. done.
Qed.

(** A run without failures applies [propagated] to every document. *)
Lemma fanout_all_ok o c s :
  store_wf s → propagationSucceeds o →
  storeOf (fanout o c (queried o (ContactDoc.Id c) s) s) = propagated c <$> s.
Proof.
  intros Hwf [Hq Hr]. apply map_eq. intros k. rewrite lookup_fmap.
  destruct (s !! k) as [d|] eqn:Hs; simpl.
  2: { rewrite fanout_lookup_untouched; [done|]. intros ? ? _. by right. }
  pose proof (Hwf k d Hs) as Hid. simpl in Hid.
  unfold propagated. case_decide as Hc.
  - rewrite <- Hid. apply fanout_lookup_updated.
    + by apply queried_NoDup.
    + unfold queried. rewrite Hq. apply elem_of_matching. eauto.
    + apply Hr.
    + rewrite Hid, Hs. eauto.
  - rewrite fanout_lookup_untouched; [done|]. intros v Hv Hk. exfalso.
    destruct (queried_lookup _ _ _ _ Hwf Hv) as [Hlk Hcv].
    rewrite Hk, Hs in Hlk. injection Hlk as ->. done.
Qed.

Lemma propagated_restamp c d :
  ContactDoc.Id (VisitReportModel.Contact d) = ContactDoc.Id c →
  propagated c (restamp c d) = propagated c d.
Proof.
  intros Hc. unfold propagated. rewrite restamp_contact_Id.
  rewrite !decide_True by done. apply restamp_idemp.
Qed.

(** X1: a notification for a contact no stored report embeds changes
    nothing: the handler queries, replaces no document and completes the
    message. *)
Theorem handler_no_match
    (U : string → ContactDoc.t * option error) (o : Outcome) (m : Message.t)
    (s : Store) (C : ContactDoc.t) :
  U (Message.Data m) = (C, None) →
  queryErr o = None →
  (∀ k d, s !! k = Some d →
          ContactDoc.Id (VisitReportModel.Contact d) ≠ ContactDoc.Id C) →
  handler U o m s
  = (completeErr o, s,
     [EvQueryDocuments partitionKey (ContactDoc.Id C); EvComplete]).
Proof.
  intros HU Hq Hnone. rewrite (handler_run _ _ _ _ _ _ HU).
  unfold queried. rewrite Hq.
  assert (matching (ContactDoc.Id C) s = []) as ->; [|done].
  apply elem_of_nil_inv. intros d (Hc & k & Hk)%elem_of_matching.
  by apply (Hnone k d).
Qed.

Lemma handler_no_match_witness :
  handler Sample.json_Unmarshal Sample.ok (Sample.msg Sample.annJSON)
    (<["r3" := Sample.r3]> ∅)
  = (None, <["r3" := Sample.r3]> ∅,
     [EvQueryDocuments "visitreport" "c1"; EvComplete]).
Proof.
  apply (handler_no_match Sample.json_Unmarshal Sample.ok
           (Sample.msg Sample.annJSON) (<["r3" := Sample.r3]> ∅) Sample.ann).
  - reflexivity.
  - reflexivity.
  - intros k d Hk. apply lookup_insert_Some in Hk as [[_ <-]|[_ Hk]].
    + by vm_compute.
    + by rewrite lookup_empty in Hk.
Defined.

(** X2: whatever the payload and whatever fails, the handler leaves the
    reports of every other contact exactly as they are. *)
Theorem handler_leaves_other_contacts
    (U : string → ContactDoc.t * option error) (o : Outcome) (m : Message.t)
    (s : Store) (doc : ContactDoc.t) (err : option error)
    (k : string) (d : VisitReportModel.t) :
  store_wf s →
  U (Message.Data m) = (doc, err) →
  s !! k = Some d →
  ContactDoc.Id (VisitReportModel.Contact d) ≠ ContactDoc.Id doc →
  storeOf (handler U o m s) !! k = Some d.
Proof.
  intros Hwf HU Hs Hc. rewrite (handler_store _ _ _ _ _ _ HU).
  destruct (fanout_lookup_cases o doc s k Hwf) as [->|(d' & Hd' & Hc' & _)];
    [done|].
  rewrite Hs in Hd'. injection Hd' as <-. done.
Qed.

Lemma handler_leaves_other_contacts_witness :
  storeOf (handler Sample.json_Unmarshal Sample.ok (Sample.msg Sample.annJSON)
             Sample.store) !! "r3" = Some Sample.r3.
Proof.
  apply (handler_leaves_other_contacts Sample.json_Unmarshal Sample.ok
           (Sample.msg Sample.annJSON) Sample.store Sample.ann None).
  - apply (bool_decide_unpack _). by vm_compute.
  - reflexivity.
  - by vm_compute.
  - by vm_compute.
Defined.

(** X3: the handler never creates and never deletes a document: the store
    holds the same ids after it as before, for every payload and every
    outcome. *)
Theorem handler_keeps_ids
    (U : string → ContactDoc.t * option error) (o : Outcome) (m : Message.t)
    (s : Store) :
  dom (storeOf (handler U o m s)) = dom s.
Proof.
  destruct (U (Message.Data m)) as [doc err] eqn:HU.
  rewrite (handler_store _ _ _ _ _ _ HU).
  apply set_eq. intros k. rewrite !elem_of_dom. apply fanout_is_Some.
Qed.

(** X4: the store a fan-out leaves does not depend on the order in which
    the replacements of distinct reports are carried out. *)
Theorem fanout_order_irrelevant (o : Outcome) (c : ContactDoc.t)
    (l l' : list VisitReportModel.t) (s : Store) :
  NoDup (VisitReportModel.Id <$> l) →
  l ≡ₚ l' →
  storeOf (forRange l (λ v, updateInBg o v c) s)
  = storeOf (forRange l' (λ v, updateInBg o v c) s).
Proof. intros Hnd Hp. by apply (fanout_perm o c l l' s). Qed.

Lemma fanout_order_irrelevant_witness :
  storeOf (forRange [Sample.r1; Sample.r2]
             (λ v, updateInBg (Sample.replaceFailsOn "r2") v Sample.ann) Sample.store)
  = storeOf (forRange [Sample.r2; Sample.r1]
               (λ v, updateInBg (Sample.replaceFailsOn "r2") v Sample.ann) Sample.store).
Proof.
  apply fanout_order_irrelevant.
  - apply (bool_decide_unpack _). by vm_compute.
  - apply Permutation_swap.
Defined.

(** X5: redelivery is harmless: once a notification was processed without
    a failure, processing the same message again leaves the store
    unchanged, whatever fails the second time. *)
Theorem redelivery_after_success
    (U : string → ContactDoc.t * option error) (o1 o2 : Outcome) (m : Message.t)
    (s : Store) :
  store_wf s →
  propagationSucceeds o1 →
  storeOf (handler U o2 m (storeOf (handler U o1 m s)))
  = storeOf (handler U o1 m s).
Proof.
  intros Hwf [Hq Hr]. apply handler_twice; [done|]. intros id _ _. split; [done|apply Hr].
Qed.

Lemma redelivery_after_success_witness :
  storeOf (handler Sample.json_Unmarshal (Sample.replaceFailsOn "r1")
             (Sample.msg Sample.annJSON)
             (storeOf (handler Sample.json_Unmarshal Sample.ok
                         (Sample.msg Sample.annJSON) Sample.store)))
  = storeOf (handler Sample.json_Unmarshal Sample.ok
               (Sample.msg Sample.annJSON) Sample.store).
Proof.
  apply redelivery_after_success.
  - apply (bool_decide_unpack _). by vm_compute.
  - split; [reflexivity|]. intros id. reflexivity.
Defined.

(** X6: a retry repairs a partial failure: processing a message again
    without failures, after a run in which the query or any replacements
    failed, gives the store a single run without failures gives. *)
Theorem retry_converges
    (U : string → ContactDoc.t * option error) (o1 o2 : Outcome) (m : Message.t)
    (s : Store) :
  store_wf s →
  propagationSucceeds o2 →
  storeOf (handler U o2 m (storeOf (handler U o1 m s)))
  = storeOf (handler U o2 m s).
Proof.
  intros Hwf Hok. destruct (U (Message.Data m)) as [doc err] eqn:HU.
  rewrite !(handler_store _ _ _ _ _ _ HU).
  rewrite (fanout_all_ok o2 doc s) by done.
  rewrite (fanout_all_ok o2 doc (storeOf _)) by (first [done|by apply fanout_wf]).
  apply map_eq. intros k. rewrite !lookup_fmap.
  destruct (fanout_lookup_cases o1 doc s k Hwf) as [->|(d & Hd & Hc & ->)];
    [done|].
  rewrite Hd. simpl. by rewrite propagated_restamp.
Qed.

Lemma retry_converges_witness :
  storeOf (handler Sample.json_Unmarshal Sample.ok (Sample.msg Sample.annJSON)
             (storeOf (handler Sample.json_Unmarshal (Sample.replaceFailsOn "r1")
                         (Sample.msg Sample.annJSON) Sample.store)))
  = storeOf (handler Sample.json_Unmarshal Sample.ok
               (Sample.msg Sample.annJSON) Sample.store).
Proof.
  apply retry_converges.
  - apply (bool_decide_unpack _). by vm_compute.
  - split; [reflexivity|]. intros id. reflexivity.
Defined.

(** A stored report that embeds the contact's id after a run without
    failures embeds the notification's contact. *)
Lemma snapshot_after_success
    (U : string → ContactDoc.t * option error) (o : Outcome) (m : Message.t)
    (s : Store) (C : ContactDoc.t) (err : option error)
    (k : string) (d : VisitReportModel.t) :
  store_wf s →
  propagationSucceeds o →
  U (Message.Data m) = (C, err) →
  storeOf (handler U o m s) !! k = Some d →
  ContactDoc.Id (VisitReportModel.Contact d) = ContactDoc.Id C →
  VisitReportModel.Contact d = C ∧ VisitReportModel.Type_ d = "visitreport".
Proof.
  intros Hwf Hok HU Hk Hc. rewrite (handler_store _ _ _ _ _ _ HU) in Hk.
  rewrite fanout_all_ok, lookup_fmap in Hk by done.
  destruct (s !! k) as [d0|]; [|done]. simpl in Hk. injection Hk as <-.
  unfold propagated in *. case_decide as Hc0; [|done].
  split; [|done]. simpl. rewrite Hc0. by destruct C.
Qed.

(** X7: after a notification was processed without a failure no stale
    snapshot is left: every stored report that embeds the contact's id
    embeds exactly the notification's contact and has the type
    "visitreport". *)
Theorem no_stale_snapshot
    (U : string → ContactDoc.t * option error) (o : Outcome) (m : Message.t)
    (s : Store) (C : ContactDoc.t) (err : option error)
    (k : string) (d : VisitReportModel.t) :
  store_wf s →
  propagationSucceeds o →
  U (Message.Data m) = (C, err) →
  storeOf (handler U o m s) !! k = Some d →
  ContactDoc.Id (VisitReportModel.Contact d) = ContactDoc.Id C →
  VisitReportModel.Contact d = C ∧ VisitReportModel.Type_ d = "visitreport".
Proof. apply snapshot_after_success. Qed.

Lemma no_stale_snapshot_witness :
  VisitReportModel.Contact (restamp Sample.ann Sample.r2) = Sample.ann
  ∧ VisitReportModel.Type_ (restamp Sample.ann Sample.r2) = "visitreport".
Proof.
  apply (no_stale_snapshot Sample.json_Unmarshal Sample.ok
           (Sample.msg Sample.annJSON) Sample.store Sample.ann None "r2").
  - apply (bool_decide_unpack _). by vm_compute.
  - split; [reflexivity|]. intros id. reflexivity.
  - reflexivity.
  - by vm_compute.
  - reflexivity.
Defined.

(** * Further properties of the handlers that write *)

(** X8: a request body that does not bind is answered with 400 and the
    binding error, by [create] and by [update] alike, before any call to
    the store or the topic: the store is unchanged and nothing is logged or
    sent. *)
Theorem invalid_request_rejected
    (B : string → VisitReportModel.t * option error)
    (Bu : string → VisitReportUpdateDoc.t * option error)
    (Mar : VisitReportEventDoc.t → string * option error)
    (o : Outcome) (reportid body : string) (s : Store) :
  (∀ vr e, B body = (vr, Some e) →
     Http.create B Mar o body s = (mkResponse 400 (ErrorBody e), s, []))
  ∧ (∀ vr e, Bu body = (vr, Some e) →
     Http.update Bu Mar o reportid body s = (mkResponse 400 (ErrorBody e), s, [])).
Proof.
  split; intros vr e HB; run_handler; by rewrite HB.
Qed.

Lemma invalid_request_rejected_witness :
  Http.create Sample.ShouldBindJSON_Model Sample.json_Marshal Sample.ok
    "{}" Sample.store
  = (mkResponse 400 (ErrorBody "invalid request"), Sample.store, [])
  ∧ Http.update Sample.ShouldBindJSON_UpdateDoc Sample.json_Marshal Sample.ok
      "r1" "{}" Sample.store
    = (mkResponse 400 (ErrorBody "invalid request"), Sample.store, []).
Proof.
  destruct (invalid_request_rejected Sample.ShouldBindJSON_Model
              Sample.ShouldBindJSON_UpdateDoc Sample.json_Marshal Sample.ok
              "r1" "{}" Sample.store) as [Hc Hu].
  split.
  - apply (Hc VisitReportModel.zero). reflexivity.
  - apply (Hu (VisitReportUpdateDoc.mk "" "" "" "" "" ContactDoc.zero)). reflexivity.
Defined.

(** X9: when the store refuses the new document ([CreateDocument] fails or
    the generated id is taken), [create] answers 500 without a body, leaves
    the store unchanged, does not read the document back and sends no
    event. *)
Theorem create_store_failure
    (B : string → VisitReportModel.t * option error)
    (Mar : VisitReportEventDoc.t → string * option error)
    (o : Outcome) (body : string) (s : Store) (vr : VisitReportModel.t) :
  B body = (vr, None) →
  createErr o ≠ None ∨ is_Some (s !! newUUID o) →
  resultOf (Http.create B Mar o body s) = mkResponse 500 NoBody
  ∧ storeOf (Http.create B Mar o body s) = s
  ∧ ∃ e, eventsOf (Http.create B Mar o body s)
         = [EvCreateDocument partitionKey (stampNew (newUUID o) vr); EvPrintln e].
Proof.
  intros HB Hfail. run_handler. rewrite HB.
  destruct (createErr o) as [e|]; simpl; [by eauto|].
  destruct Hfail as [?|[d Hd]]; [done|]. rewrite Hd. simpl. by eauto.
Qed.

Lemma create_store_failure_witness :
  resultOf (Http.create Sample.ShouldBindJSON_Model Sample.json_Marshal
              (mkOutcome None (λ _, None) (λ _, None) None None None None "r1")
              Sample.createJSON Sample.store)
  = mkResponse 500 NoBody.
Proof.
  apply (create_store_failure Sample.ShouldBindJSON_Model Sample.json_Marshal
           (mkOutcome None (λ _, None) (λ _, None) None None None None "r1")
           Sample.createJSON Sample.store Sample.createBound).
  - reflexivity.
  - right. exists Sample.r1. by vm_compute.
Defined.

(** [update] when the replacement is refused. *)
Lemma update_refused
    (Bu : string → VisitReportUpdateDoc.t * option error)
    (Mar : VisitReportEventDoc.t → string * option error)
    (o : Outcome) (reportid body : string) (s : Store)
    (vr : VisitReportUpdateDoc.t) :
  Bu body = (vr, None) →
  s !! reportid = None ∨ replaceErr o reportid ≠ None →
  resultOf (Http.update Bu Mar o reportid body s) = mkResponse 500 NoBody
  ∧ storeOf (Http.update Bu Mar o reportid body s) = s
  ∧ sent (eventsOf (Http.update Bu Mar o reportid body s)) = [].
Proof.
  intros HB Hfail. run_handler. rewrite HB.
  destruct (getErr o reportid), (s !! reportid) eqn:Hs; simpl; rewrite ?Hs.
  all: destruct (replaceErr o reportid); simpl; try done.
  all: by destruct Hfail.
Qed.

(** X10: [update] does not create reports: for an id the store does not
    hold, or when the replacement fails, it answers 500 without a body,
    leaves the store unchanged and sends no event. *)
Theorem update_replace_failure
    (Bu : string → VisitReportUpdateDoc.t * option error)
    (Mar : VisitReportEventDoc.t → string * option error)
    (o : Outcome) (reportid body : string) (s : Store)
    (vr : VisitReportUpdateDoc.t) :
  Bu body = (vr, None) →
  s !! reportid = None ∨ replaceErr o reportid ≠ None →
  resultOf (Http.update Bu Mar o reportid body s) = mkResponse 500 NoBody
  ∧ storeOf (Http.update Bu Mar o reportid body s) = s
  ∧ sent (eventsOf (Http.update Bu Mar o reportid body s)) = [].
Proof. apply update_refused. Qed.

Lemma update_replace_failure_witness :
  resultOf (Http.update Sample.ShouldBindJSON_UpdateDoc Sample.json_Marshal
              Sample.ok "r9" Sample.updateJSON Sample.store)
  = mkResponse 500 NoBody
  ∧ storeOf (Http.update Sample.ShouldBindJSON_UpdateDoc Sample.json_Marshal
               Sample.ok "r9" Sample.updateJSON Sample.store)
    = Sample.store.
Proof.
  destruct (update_replace_failure Sample.ShouldBindJSON_UpdateDoc
              Sample.json_Marshal Sample.ok "r9" Sample.updateJSON Sample.store
              Sample.updateBound) as (Hr & Hs & _).
  - reflexivity.
  - left. by vm_compute.
  - split; [exact Hr|exact Hs].
Defined.

(** X11: an update whose fetch and replacement succeed stores, whether or
    not the event can be published afterwards, the fetched report with
    subject, description, result, visit date and the whole contact taken
    from the request; type, detected language, sentiment score and key
    phrases stay as stored, and no other report changes. *)
Theorem update_overlays_request
    (Bu : string → VisitReportUpdateDoc.t * option error)
    (Mar : VisitReportEventDoc.t → string * option error)
    (o : Outcome) (reportid body : string) (s : Store)
    (vr : VisitReportUpdateDoc.t) (cur : VisitReportModel.t) :
  Bu body = (vr, None) →
  getErr o reportid = None →
  replaceErr o reportid = None →
  s !! reportid = Some cur →
  VisitReportUpdateDoc.Id vr = reportid →
  ∃ d, storeOf (Http.update Bu Mar o reportid body s) = <[reportid := d]> s
    ∧ VisitReportModel.Id d = reportid
    ∧ VisitReportModel.Subject d = VisitReportUpdateDoc.Subject vr
    ∧ VisitReportModel.Description d = VisitReportUpdateDoc.Description vr
    ∧ VisitReportModel.Result d = VisitReportUpdateDoc.Result vr
    ∧ VisitReportModel.VisitDate d = VisitReportUpdateDoc.VisitDate vr
    ∧ VisitReportModel.Contact d = VisitReportUpdateDoc.Contact vr
    ∧ VisitReportModel.Type_ d = VisitReportModel.Type_ cur
    ∧ VisitReportModel.DetectedLanguage d = VisitReportModel.DetectedLanguage cur
    ∧ VisitReportModel.VisitResultSentimentScore d
      = VisitReportModel.VisitResultSentimentScore cur
    ∧ VisitReportModel.VisitResultKeyPhrases d
      = VisitReportModel.VisitResultKeyPhrases cur.
Proof.
  intros HB Hg Hr Hs Hid. exists (Copy_Model_from_UpdateDoc cur vr).
  split; [|by repeat split].
  run_handler. rewrite HB, Hg, Hs. simpl. rewrite Hr, Hs. simpl.
  rewrite Hid, lookup_delete_eq. simpl.
  destruct (Mar _) as [data [e|]]; simpl; [by rewrite insert_delete_eq|].
  destruct (sendErr o); simpl; by rewrite insert_delete_eq.
Qed.

Lemma update_overlays_request_witness :
  ∃ d, storeOf (Http.update Sample.ShouldBindJSON_UpdateDoc Sample.json_Marshal
                  Sample.sendFails "r1" Sample.updateJSON Sample.store)
       = <["r1" := d]> Sample.store
       ∧ VisitReportModel.Result d = "signed"
       ∧ VisitReportModel.VisitResultKeyPhrases d = ["review"].
Proof.
  destruct (update_overlays_request Sample.ShouldBindJSON_UpdateDoc
              Sample.json_Marshal Sample.sendFails "r1" Sample.updateJSON
              Sample.store Sample.updateBound Sample.r1)
    as (d & Hst & _ & _ & _ & Hres & _ & _ & _ & _ & _ & Hkp).
  - reflexivity.
  - reflexivity.
  - reflexivity.
  - by vm_compute.
  - reflexivity.
  - exists d. split; [exact Hst|]. split; [exact Hres|exact Hkp].
Defined.

(** X12: the event an answered update has sent carries the values of the
    request: its id, subject, description, result, visit date and
    contact. *)
Theorem update_event_carries_request
    (Bu : string → VisitReportUpdateDoc.t * option error)
    (Mar : VisitReportEventDoc.t → string * option error)
    (o : Outcome) (reportid body : string) (s : Store)
    (d : VisitReportReadDoc.t) :
  resultOf (Http.update Bu Mar o reportid body s) = mkResponse 200 (ReadDocBody d) →
  ∃ vr ev data,
    Bu body = (vr, None)
    ∧ Mar ev = (data, None)
    ∧ sent (eventsOf (Http.update Bu Mar o reportid body s))
      = [(currentTopic, sendDeadline, Message.mk "application/json" data)]
    ∧ VisitReportEventDoc.EventType ev = "VisitReportUpdatedEvent"
    ∧ VisitReportReadDoc.Id (VisitReportEventDoc.ReadDoc ev)
      = VisitReportUpdateDoc.Id vr
    ∧ VisitReportReadDoc.Subject (VisitReportEventDoc.ReadDoc ev)
      = VisitReportUpdateDoc.Subject vr
    ∧ VisitReportReadDoc.Description (VisitReportEventDoc.ReadDoc ev)
      = VisitReportUpdateDoc.Description vr
    ∧ VisitReportReadDoc.Result (VisitReportEventDoc.ReadDoc ev)
      = VisitReportUpdateDoc.Result vr
    ∧ VisitReportReadDoc.VisitDate (VisitReportEventDoc.ReadDoc ev)
      = VisitReportUpdateDoc.VisitDate vr
    ∧ VisitReportReadDoc.Contact (VisitReportEventDoc.ReadDoc ev)
      = VisitReportUpdateDoc.Contact vr.
Proof.
  intros H. apply update_answered in H as (vr & data & HB & _ & HM & Hsent & _).
  exists vr. eexists _, data. split; [done|]. split; [exact HM|].
  split; [exact Hsent|]. by repeat split.
Qed.

Lemma update_event_carries_request_witness :
  ∃ ev data,
    Sample.json_Marshal ev = (data, None)
    ∧ sent (eventsOf (Http.update Sample.ShouldBindJSON_UpdateDoc Sample.json_Marshal
                        Sample.ok "r1" Sample.updateJSON Sample.store))
      = [(currentTopic, sendDeadline, Message.mk "application/json" data)]
    ∧ VisitReportReadDoc.Result (VisitReportEventDoc.ReadDoc ev) = "signed".
Proof.
  destruct (update_event_carries_request Sample.ShouldBindJSON_UpdateDoc
              Sample.json_Marshal Sample.ok "r1" Sample.updateJSON Sample.store
              VisitReportReadDoc.zero)
    as (vr & ev & data & HB & HM & Hsent & _ & _ & _ & _ & Hres & _).
  - by vm_compute.
  - exists ev, data. split; [exact HM|]. split; [exact Hsent|].
    rewrite Hres. by injection HB as <-.
Defined.

(** X13: the event a create answered with 201 has sent describes exactly
    what the client was told: the event is the response body with the
    type "VisitReportCreatedEvent" and the version "1". *)
Theorem create_event_is_response_body
    (B : string → VisitReportModel.t * option error)
    (Mar : VisitReportEventDoc.t → string * option error)
    (o : Outcome) (body : string) (s : Store) (d : VisitReportReadDoc.t) :
  resultOf (Http.create B Mar o body s) = mkResponse 201 (ReadDocBody d) →
  ∃ data,
    Mar (VisitReportEventDoc.mk "VisitReportCreatedEvent" "1" d) = (data, None)
    ∧ sent (eventsOf (Http.create B Mar o body s))
      = [(currentTopic, sendDeadline, Message.mk "application/json" data)].
Proof.
  run_handler.
  destruct (B body) as [vr [e|]] eqn:HB; [done|]. simpl.
  destruct (createErr o); [done|].
  destruct (s !! newUUID o) eqn:Hs; [done|].
  simpl. rewrite lookup_insert_eq.
  destruct (getErr o (newUUID o)); simpl.
  all: destruct (Mar _) as [data [?|]] eqn:HM; simpl; try done.
  all: destruct (sendErr o); simpl; try done.
  all: intros H; inversion H; subst; exists data; split; [exact HM|done].
Qed.

Lemma create_event_is_response_body_witness :
  ∃ data,
    Sample.json_Marshal
      (VisitReportEventDoc.mk "VisitReportCreatedEvent" "1"
         (Copy_ReadDoc_from_Model VisitReportReadDoc.zero
            (stampNew Sample.uuid Sample.createBound))) = (data, None)
    ∧ sent (eventsOf (Http.create Sample.ShouldBindJSON_Model Sample.json_Marshal
                        Sample.ok Sample.createJSON Sample.store))
      = [(currentTopic, sendDeadline, Message.mk "application/json" data)].
Proof.
  apply (create_event_is_response_body Sample.ShouldBindJSON_Model
           Sample.json_Marshal Sample.ok Sample.createJSON Sample.store).
  by vm_compute.
Defined.

(** * Properties of the handlers that read *)

Lemma read_run o reportid s :
  HttpQuery.read o reportid s
  = (mkResponse 200
       (ReadDocBody (Copy_ReadDoc_from_Model VisitReportReadDoc.zero
                       (fetched o reportid s))),
     s,
     EvGetDocument partitionKey reportid
     :: printed (match getErr o reportid with
                 | Some e => Some e
                 | None => match s !! reportid with
                           | Some _ => None
                           | None => Some "NotFound"
                           end
                 end)).
Proof.
  unfold HttpQuery.read, fetched. run_handler.
  destruct (getErr o reportid); [done|]. by destruct (s !! reportid).
Qed.

(** X14: [read] never answers with an error status and never changes the
    store: a stored report is answered with its projection and nothing is
    printed; for an id the store does not hold, or when the fetch fails,
    the answer is still 200, with the projection of the zero value, and the
    error is only printed. *)
Theorem read_answers_200_always (o : Outcome) (reportid : string) (s : Store) :
  status (resultOf (HttpQuery.read o reportid s)) = 200
  ∧ storeOf (HttpQuery.read o reportid s) = s
  ∧ (∀ d, getErr o reportid = None → s !! reportid = Some d →
          HttpQuery.read o reportid s
          = (mkResponse 200
               (ReadDocBody (Copy_ReadDoc_from_Model VisitReportReadDoc.zero d)),
             s, [EvGetDocument partitionKey reportid]))
  ∧ (getErr o reportid ≠ None ∨ s !! reportid = None →
     body (resultOf (HttpQuery.read o reportid s)) = ReadDocBody VisitReportReadDoc.zero
     ∧ ∃ e, eventsOf (HttpQuery.read o reportid s)
            = [EvGetDocument partitionKey reportid; EvPrintln e]).
Proof.
  rewrite read_run. unfold fetched, resultOf, storeOf, eventsOf. simpl.
  split; [done|]. split; [done|]. split.
  - intros d Hg Hs. by rewrite Hg, Hs.
  - intros Hfail. destruct (getErr o reportid) as [e|]; [by eauto|].
    destruct Hfail as [?|Hs]; [done|]. rewrite Hs. by eauto.
Qed.

Lemma read_answers_200_always_witness :
  HttpQuery.read Sample.ok "r3" Sample.store
  = (mkResponse 200
       (ReadDocBody (Copy_ReadDoc_from_Model VisitReportReadDoc.zero Sample.r3)),
     Sample.store, [EvGetDocument "visitreport" "r3"])
  ∧ body (resultOf (HttpQuery.read Sample.ok "r9" Sample.store))
    = ReadDocBody VisitReportReadDoc.zero.
Proof.
  destruct (read_answers_200_always Sample.ok "r3" Sample.store)
    as (_ & _ & Hfound & _).
  destruct (read_answers_200_always Sample.ok "r9" Sample.store)
    as (_ & _ & _ & Hmissing).
  split.
  - apply Hfound; [reflexivity|by vm_compute].
  - apply Hmissing. right. by vm_compute.
Defined.

(** X15: what [create] answered can be read back: after a create answered
    with 201, reading the generated id (the fetch succeeding) answers 200
    with the bound request under the generated id, and changes nothing. *)
Theorem create_then_read
    (B : string → VisitReportModel.t * option error)
    (Mar : VisitReportEventDoc.t → string * option error)
    (o o' : Outcome) (body : string) (s : Store) :
  status (resultOf (Http.create B Mar o body s)) = 201 →
  getErr o' (newUUID o) = None →
  ∃ vr, B body = (vr, None)
    ∧ HttpQuery.read o' (newUUID o) (storeOf (Http.create B Mar o body s))
      = (mkResponse 200
           (ReadDocBody (Copy_ReadDoc_from_Model VisitReportReadDoc.zero
                           (stampNew (newUUID o) vr))),
         storeOf (Http.create B Mar o body s),
         [EvGetDocument partitionKey (newUUID o)]).
Proof.
  intros H Hg. apply create_created in H as (vr & _ & _ & HB & _ & Hst & _).
  exists vr. split; [done|]. rewrite Hst, read_run. unfold fetched.
  by rewrite Hg, lookup_insert_eq.
Qed.

Lemma create_then_read_witness :
  body (resultOf (HttpQuery.read Sample.ok Sample.uuid
                    (storeOf (Http.create Sample.ShouldBindJSON_Model
                                Sample.json_Marshal Sample.ok Sample.createJSON
                                Sample.store))))
  = ReadDocBody (Copy_ReadDoc_from_Model VisitReportReadDoc.zero
                   (stampNew Sample.uuid Sample.createBound)).
Proof.
  destruct (create_then_read Sample.ShouldBindJSON_Model Sample.json_Marshal
              Sample.ok Sample.ok Sample.createJSON Sample.store)
    as (vr & HB & Hread).
  - by vm_compute.
  - reflexivity.
  - change (newUUID Sample.ok) with Sample.uuid in Hread. rewrite Hread.
    injection HB as <-. reflexivity.
Defined.

(** X16: a successful delete is final: the store no longer holds the
    report and holds every other report as before; reading the id then
    answers the projection of the zero value, and an update of the id
    answers 500 and does not bring the report back. *)
Theorem delete_is_final
    (Bu : string → VisitReportUpdateDoc.t * option error)
    (Mar : VisitReportEventDoc.t → string * option error)
    (o o' : Outcome) (reportid requestBody : string) (s : Store)
    (vr : VisitReportUpdateDoc.t) :
  deleteErr o = None →
  is_Some (s !! reportid) →
  Bu requestBody = (vr, None) →
  let s' := storeOf (Http.delete o reportid s) in
  s' !! reportid = None
  ∧ (∀ k, k ≠ reportid → s' !! k = s !! k)
  ∧ body (resultOf (HttpQuery.read o' reportid s')) = ReadDocBody VisitReportReadDoc.zero
  ∧ resultOf (Http.update Bu Mar o' reportid requestBody s') = mkResponse 500 NoBody
  ∧ storeOf (Http.update Bu Mar o' reportid requestBody s') = s'.
Proof.
  intros Hd [d Hs] HB s'.
  assert (s' = base.delete reportid s) as Hs'.
  { unfold s'. run_handler. by rewrite Hd, Hs. }
  assert (s' !! reportid = None) as Hgone.
  { rewrite Hs'. apply lookup_delete_eq. }
  split; [done|]. split.
  { intros k Hk. rewrite Hs'. by apply lookup_delete_ne. }
  split.
  { rewrite read_run. unfold fetched, resultOf. simpl. rewrite Hgone.
    by destruct (getErr o' reportid). }
  destruct (update_refused Bu Mar o' reportid requestBody s' vr HB) as (? & ? & _);
    [by left|done].
Qed.

Lemma delete_is_final_witness :
  storeOf (Http.delete Sample.ok "r1" Sample.store) !! "r1" = None
  ∧ resultOf (Http.update Sample.ShouldBindJSON_UpdateDoc Sample.json_Marshal
                Sample.ok "r1" Sample.updateJSON
                (storeOf (Http.delete Sample.ok "r1" Sample.store)))
    = mkResponse 500 NoBody.
Proof.
  destruct (delete_is_final Sample.ShouldBindJSON_UpdateDoc Sample.json_Marshal
              Sample.ok Sample.ok "r1" Sample.updateJSON Sample.store
              Sample.updateBound) as (Hgone & _ & _ & Hup & _).
  - reflexivity.
  - exists Sample.r1. by vm_compute.
  - reflexivity.
  - split; [exact Hgone|exact Hup].
Defined.

(** ** [list] *)

Lemma elem_of_selected qry s d :
  d ∈ selected qry s
  ↔ (∃ k, s !! k = Some d)
    ∧ match qry with
      | SelectAll => True
      | SelectByContact cid => ContactDoc.Id (VisitReportModel.Contact d) = cid
      end.
Proof.
  destruct qry as [|cid]; simpl.
  - rewrite list_elem_of_fmap. split.
    + intros ([k d'] & -> & Hin). split; [|done]. exists k.
      by apply elem_of_map_to_list.
    + intros [[k Hk] _]. exists (k, d). split; [done|].
      by apply elem_of_map_to_list.
  - rewrite elem_of_matching. tauto.
Qed.

(** X18: without a contact id (no parameter, or an empty one) [list]
    answers 200 with one entry per stored report, each the list projection
    of a stored report, and every stored report is listed. *)
Theorem list_unfiltered (o : Outcome) (param : option string) (s : Store) :
  param = None ∨ param = Some "" →
  queryErr o = None →
  lstatus (HttpQuery.list o param s).1 = 200
  ∧ length (lbody (HttpQuery.list o param s).1) = size s
  ∧ ∀ e, e ∈ lbody (HttpQuery.list o param s).1
         ↔ ∃ k d, s !! k = Some d
                  ∧ e = Copy_ListDoc_from_Model VisitReportListDoc.zero d.
Proof.
  intros Hp Hq. unfold HttpQuery.list. rewrite Hq.
  assert (default "" param = "") as -> by (by destruct Hp as [->| ->]).
  simpl. unfold Copy_ListDocs_from_Models. simpl.
  split; [done|]. split.
  - by rewrite !length_fmap, length_map_to_list.
  - intros e. rewrite list_elem_of_fmap. split.
    + intros (d & -> & Hd). apply (elem_of_selected SelectAll) in Hd as [[k Hk] _].
      eauto.
    + intros (k & d & Hk & ->). exists d. split; [done|].
      apply (elem_of_selected SelectAll). eauto.
Qed.

Lemma list_unfiltered_witness :
  length (lbody (HttpQuery.list Sample.ok None Sample.store).1) = 3.
Proof.
  destruct (list_unfiltered Sample.ok None Sample.store) as (_ & Hlen & _).
  - by left.
  - reflexivity.
  - rewrite Hlen. by vm_compute.
Defined.

(** X19: with a non-empty contact id [list] answers exactly the list
    projections of the stored reports that embed this contact id. *)
Theorem list_filtered (o : Outcome) (contactid : string) (s : Store) :
  contactid ≠ "" →
  queryErr o = None →
  lstatus (HttpQuery.list o (Some contactid) s).1 = 200
  ∧ ∀ e, e ∈ lbody (HttpQuery.list o (Some contactid) s).1
         ↔ ∃ k d, s !! k = Some d
                  ∧ ContactDoc.Id (VisitReportModel.Contact d) = contactid
                  ∧ e = Copy_ListDoc_from_Model VisitReportListDoc.zero d.
Proof.
  intros Hne Hq. unfold HttpQuery.list. rewrite Hq. simpl.
  rewrite decide_False by done. unfold Copy_ListDocs_from_Models. simpl.
  split; [done|]. intros e. rewrite list_elem_of_fmap. split.
  - intros (d & -> & Hd).
    apply (elem_of_selected (SelectByContact contactid)) in Hd as [[k Hk] Hc].
    eauto.
  - intros (k & d & Hk & Hc & ->). exists d. split; [done|].
    apply (elem_of_selected (SelectByContact contactid)). eauto.
Qed.

Lemma list_filtered_witness :
  Copy_ListDoc_from_Model VisitReportListDoc.zero Sample.r3
  ∈ lbody (HttpQuery.list Sample.ok (Some "c2") Sample.store).1.
Proof.
  destruct (list_filtered Sample.ok "c2" Sample.store) as (_ & Hiff).
  - done.
  - reflexivity.
  - apply Hiff. exists "r3", Sample.r3. split; [by vm_compute|]. by split.
Defined.

(** X20: a failing query does not fail the request: [list] prints the
    error and answers 200 with an empty array. *)
Theorem list_query_failure (o : Outcome) (param : option string) (s : Store)
    (e : error) :
  queryErr o = Some e →
  ∃ qry, HttpQuery.list o param s
         = (mkListResponse 200 [], [LQueryDocuments partitionKey qry; LPrintln e]).
Proof.
  intros Hq. unfold HttpQuery.list. rewrite Hq. eexists. reflexivity.
Qed.

Lemma list_query_failure_witness :
  ∃ qry, HttpQuery.list Sample.queryFails (Some "c1") Sample.store
         = (mkListResponse 200 [],
            [LQueryDocuments partitionKey qry; LPrintln "query failed"]).
Proof.
  apply (list_query_failure Sample.queryFails (Some "c1") Sample.store "query failed").
  reflexivity.
Defined.

(** X21: propagation is visible to the API: after a notification for a
    contact was processed without a failure, every entry [list] answers for
    that contact's id shows exactly the notification's contact. *)
Theorem list_after_propagation
    (U : string → ContactDoc.t * option error) (o o' : Outcome) (m : Message.t)
    (s : Store) (C : ContactDoc.t) (err : option error)
    (e : VisitReportListDoc.t) :
  store_wf s →
  propagationSucceeds o →
  U (Message.Data m) = (C, err) →
  ContactDoc.Id C ≠ "" →
  e ∈ lbody (HttpQuery.list o' (Some (ContactDoc.Id C))
               (storeOf (handler U o m s))).1 →
  VisitReportListDoc.Contact e = C ∧ VisitReportListDoc.Type_ e = "visitreport".
Proof.
  intros Hwf Hok HU Hne He. unfold HttpQuery.list in He. simpl in He.
  rewrite decide_False in He by done.
  destruct (queryErr o'); simpl in He; [by apply elem_of_nil in He|].
  unfold Copy_ListDocs_from_Models in He. simpl in He.
  apply list_elem_of_fmap in He as (d & -> & Hd). simpl.
  apply elem_of_matching in Hd as (Hc & k & Hk).
  by apply (snapshot_after_success U o m s C err k d).
Qed.

Lemma list_after_propagation_witness :
  VisitReportListDoc.Contact
    (Copy_ListDoc_from_Model VisitReportListDoc.zero (restamp Sample.ann Sample.r1))
  = Sample.ann.
Proof.
  apply (list_after_propagation Sample.json_Unmarshal Sample.ok Sample.ok
           (Sample.msg Sample.annJSON) Sample.store Sample.ann None).
  - apply (bool_decide_unpack _). by vm_compute.
  - split; [reflexivity|]. intros id. reflexivity.
  - reflexivity.
  - done.
  - unfold HttpQuery.list. simpl. unfold Copy_ListDocs_from_Models. simpl.
    apply list_elem_of_fmap_2. apply elem_of_matching. split; [reflexivity|].
    exists "r1". by vm_compute.
Defined.
